(** * StreamFetch backend: a shallow embedding of [server.js]

    The server is a thin HTTP relay: it validates a video URL, finds the
    hosting platform, asks a third-party service for metadata and either
    redirects the client or proxies the bytes.  This file embeds the request
    handling logic of [src/server.js] as Rocq functions and states the
    properties of the specification over them.

    Conventions of the embedding.
    - JavaScript values that arrive from outside (query parameters, JSON
      bodies of upstream services) are terms of [Js.value].
    - Text is ASCII: a [string] holds one character per code unit.
    - Numbers are the integers and [NaN]; that is what the duration field of
      the upstream service holds.  An integer is printed with all its digits,
      as JavaScript does below 10^21.
    - Exceptions are values of [Js.result]; [try]/[catch] is a [match].
    - An [await]ed call to the outside world is a lookup in a [World], the
      record of what each outbound request would answer. *)

From Stdlib Require Import ZArith Bool List Lia.
From Stdlib Require Import Strings.String Strings.Ascii Numbers.DecimalString.
Import ListNotations.

Set Warnings "-register-all".

Open Scope string_scope.
Open Scope Z_scope.

(** ** Text: the string methods the server calls *)

Module Text.

(** The code of a character, 0 to 255. *)
Definition code (c : ascii) : Z := Z.of_N (N_of_ascii c).

(** Character classes. *)
Definition between (lo hi : Z) (c : ascii) : bool :=
  (lo <=? code c) && (code c <=? hi).

Definition isUpper : ascii -> bool := between 65 90.
Definition isLower : ascii -> bool := between 97 122.
Definition isDigit : ascii -> bool := between 48 57.
Definition isAlpha (c : ascii) : bool := isUpper c || isLower c.
Definition isAlnum (c : ascii) : bool := isAlpha c || isDigit c.

Definition isHexDigit (c : ascii) : bool :=
  isDigit c || between 65 70 c || between 97 102 c.

(** ASCII white space and line terminators, as [String.prototype.trim]
    sees them. *)
Definition isWhite (c : ascii) : bool :=
  between 9 13 c || (code c =? 32).

(** ASCII lower-casing of one character. *)
Definition lowerChar (c : ascii) : ascii :=
  if isUpper c then ascii_of_N (N_of_ascii c + 32) else c.

Fixpoint map (f : ascii -> ascii) (s : string) : string :=
  match s with
  | "" => ""
  | String c r => String (f c) (map f r)
  end.

Definition toLowerCase : string -> string := map lowerChar.

Fixpoint all (p : ascii -> bool) (s : string) : bool :=
  match s with
  | "" => true
  | String c r => p c && all p r
  end.

Fixpoint any (p : ascii -> bool) (s : string) : bool :=
  match s with
  | "" => false
  | String c r => p c || any p r
  end.

Fixpoint filter (p : ascii -> bool) (s : string) : string :=
  match s with
  | "" => ""
  | String c r => if p c then String c (filter p r) else filter p r
  end.

(** [startsWith p s]: [s.startsWith(p)]. *)
Fixpoint startsWith (p s : string) : bool :=
  match p, s with
  | "", _ => true
  | String _ _, "" => false
  | String a p', String b s' => Ascii.eqb a b && startsWith p' s'
  end.

(** [includes s sub]: [s.includes(sub)]. *)
Fixpoint includes (s sub : string) : bool :=
  startsWith sub s ||
  match s with
  | "" => false
  | String _ r => includes r sub
  end.

(** [splitBy p s] cuts [s] at every character satisfying [p]. *)
Fixpoint splitBy (p : ascii -> bool) (s : string) : list string :=
  match s with
  | "" => [""]
  | String c r =>
      if p c then "" :: splitBy p r
      else match splitBy p r with
           | h :: t => String c h :: t
           | [] => [String c ""]
           end
  end.

(** [split sep s]: [s.split(sep)] for a one-character separator. *)
Definition split (sep : ascii) (s : string) : list string :=
  splitBy (Ascii.eqb sep) s.

(** [oneOf codes c]: the code of [c] is listed in [codes]. *)
Definition oneOf (codes : list Z) (c : ascii) : bool :=
  existsb (Z.eqb (code c)) codes.

(** [splitLast p s]: the text before and after the last character of [s]
    satisfying [p], if there is one. *)
Fixpoint splitLast (p : ascii -> bool) (s : string) : option (string * string) :=
  match s with
  | "" => None
  | String c r =>
      match splitLast p r with
      | Some (a, b) => Some (String c a, b)
      | None => if p c then Some ("", r) else None
      end
  end.

(** [join sep l]: [l.join(sep)] on an array of strings. *)
Definition join (sep : string) (l : list string) : string :=
  String.concat sep l.

(** [s] without its longest prefix, respectively suffix, in [p]. *)
Fixpoint dropWhile (p : ascii -> bool) (s : string) : string :=
  match s with
  | "" => ""
  | String c r => if p c then dropWhile p r else s
  end.

Fixpoint dropWhileEnd (p : ascii -> bool) (s : string) : string :=
  match s with
  | "" => ""
  | String c r =>
      match dropWhileEnd p r with
      | "" => if p c then "" else String c ""
      | r' => String c r'
      end
  end.

(** [s.trim()]. *)
Definition trim (s : string) : string :=
  dropWhileEnd isWhite (dropWhile isWhite s).

Fixpoint repeat (c : ascii) (n : nat) : string :=
  match n with
  | O => ""
  | S k => String c (repeat c k)
  end.

(** [padStart n c s]: [s.padStart(n, c)] for a one-character filler. *)
Definition padStart (n : nat) (c : ascii) (s : string) : string :=
  repeat c (n - String.length s) ++ s.

(** [span p s] cuts [s] before its first character satisfying [p]. *)
Fixpoint span (p : ascii -> bool) (s : string) : string * string :=
  match s with
  | "" => ("", "")
  | String c r =>
      if p c then ("", s)
      else let (a, b) := span p r in (String c a, b)
  end.

(** Hexadecimal digits, printed in upper case and read in either case. *)
Definition hexDigit (n : Z) : ascii :=
  if n <? 10 then ascii_of_N (Z.to_N (48 + n))
  else ascii_of_N (Z.to_N (55 + n)).

Definition hexValue (c : ascii) : Z :=
  if isDigit c then code c - 48
  else if between 65 70 c then code c - 55
  else code c - 87.

(** [%XX] with upper-case hexadecimal digits. *)
Definition percent (c : ascii) : string :=
  String "%" (String (hexDigit (code c / 16))
                (String (hexDigit (code c mod 16)) "")).

(** Percent-encode every character of [s] that lies in the set [p]. *)
Fixpoint percentEncode (p : ascii -> bool) (s : string) : string :=
  match s with
  | "" => ""
  | String c r =>
      if p c then percent c ++ percentEncode p r
      else String c (percentEncode p r)
  end.

(** Percent-decode: [%XY] with two hexadecimal digits becomes one byte,
    anything else is kept. *)
Fixpoint percentDecode (s : string) : string :=
  match s with
  | "" => ""
  | String c r =>
      match r with
      | String x (String y r') =>
          if Ascii.eqb c "%" && isHexDigit x && isHexDigit y
          then String (ascii_of_N (Z.to_N (16 * hexValue x + hexValue y)))
                      (percentDecode r')
          else String c (percentDecode r)
      | _ => String c (percentDecode r)
      end
  end.

(** The decimal digits of an integer, with a minus sign when negative. *)
Definition ofZ (z : Z) : string := NilZero.string_of_int (Z.to_int z).

(** The value of a string of decimal digits; [None] when the string is
    empty or holds another character. *)
Fixpoint digitsFrom (acc : Z) (s : string) : option Z :=
  match s with
  | "" => Some acc
  | String c r =>
      if isDigit c then digitsFrom (10 * acc + (code c - 48)) r else None
  end.

(** The value of a non-empty string of decimal digits. *)
Definition decimal (s : string) : option Z :=
  match s with
  | "" => None
  | _ => digitsFrom 0 s
  end.

End Text.

(** ** Js: values, coercions and exceptions *)

Module Js.

(** A JavaScript number: an integer or [NaN]. *)
Inductive number : Type :=
| NaN
| Int (z : Z).

(** Values as [JSON.parse] and the query-string parser produce them.  An
    object is the list of its own properties in insertion order; a lookup
    takes the first binding of the key. *)
Inductive value : Type :=
| VUndefined
| VNull
| VBool (b : bool)
| VNumber (n : number)
| VString (s : string)
| VArray (items : list value)
| VObject (fields : list (string * value)).

(** An exception in flight.  [response] is [error.response.data] of an
    HTTP client error that carries an upstream response; errors raised
    with [new Error(..)] and type errors have none. *)
Record error : Type := mkError {
  message : string;
  response : option value
}.

(** [new Error(msg)]. *)
Definition Error (msg : string) : error := mkError msg None.

(** A computation that returns or throws. *)
Inductive result (A : Type) : Type :=
| Ok (a : A)
| Throw (e : error).

Arguments Ok {A} a.
Arguments Throw {A} e.

Definition bind {A B : Type} (m : result A) (k : A -> result B) : result B :=
  match m with
  | Ok a => k a
  | Throw e => Throw e
  end.

(** [ToBoolean]. *)
Definition truthy (v : value) : bool :=
  match v with
  | VUndefined | VNull => false
  | VBool b => b
  | VNumber NaN => false
  | VNumber (Int z) => negb (z =? 0)
  | VString s => negb (s =? "")%string
  | VArray _ | VObject _ => true
  end.

(** [a || b]. *)
Definition or (a b : value) : value := if truthy a then a else b.

(** [Number.prototype.toString]. *)
Definition numberToString (n : number) : string :=
  match n with
  | NaN => "NaN"
  | Int z => Text.ofZ z
  end.

(** [ToString]: what a template literal and [new Error(v)] do to [v]. *)
Fixpoint ToString (v : value) : string :=
  match v with
  | VUndefined => "undefined"
  | VNull => "null"
  | VBool true => "true"
  | VBool false => "false"
  | VNumber n => numberToString n
  | VString s => s
  | VArray items =>
      Text.join ","
        ((fix each (l : list value) : list string :=
            match l with
            | [] => []
            | x :: r =>
                match x with
                | VUndefined | VNull => ""
                | _ => ToString x
                end :: each r
            end) items)
  | VObject _ => "[object Object]"
  end.

(** [StringToNumber] on decimal integer text: surrounding white space is
    dropped, the empty string is 0, an optional sign precedes the digits.
    Other numeric literals (fractions, exponents, radix prefixes) denote
    numbers outside [number] and are not read. *)
Definition StringToNumber (s : string) : number :=
  match Text.trim s with
  | "" => Int 0
  | String c r =>
      if Ascii.eqb c "-" then
        match Text.decimal r with Some z => Int (- z) | None => NaN end
      else if Ascii.eqb c "+" then
        match Text.decimal r with Some z => Int z | None => NaN end
      else
        match Text.decimal (String c r) with Some z => Int z | None => NaN end
  end.

(** [ToNumber]. *)
Definition ToNumber (v : value) : number :=
  match v with
  | VUndefined => NaN
  | VNull => Int 0
  | VBool b => Int (if b then 1 else 0)
  | VNumber n => n
  | VString s => StringToNumber s
  | VArray _ => StringToNumber (ToString v)
  | VObject _ => NaN
  end.

(** The global [isNaN(v)]. *)
Definition isNaN (v : value) : bool :=
  match ToNumber v with
  | NaN => true
  | Int _ => false
  end.

(** [v < k] for a numeric literal [k]. *)
Definition lt (v : value) (k : Z) : bool :=
  match ToNumber v with
  | NaN => false
  | Int z => z <? k
  end.

(** [a === b] for the values compared in the server: primitives compare by
    value, two distinct arrays or objects are never identical. *)
Definition strictEq (a b : value) : bool :=
  match a, b with
  | VUndefined, VUndefined => true
  | VNull, VNull => true
  | VBool x, VBool y => Bool.eqb x y
  | VNumber (Int x), VNumber (Int y) => x =? y
  | VString x, VString y => (x =? y)%string
  | _, _ => false
  end.

(** The own property [key] of an object, [undefined] when it has none. *)
Fixpoint lookup (key : string) (fields : list (string * value)) : value :=
  match fields with
  | [] => VUndefined
  | (k, v) :: rest => if (k =? key)%string then v else lookup key rest
  end.

(** [null] or [undefined]. *)
Definition nullish (v : value) : bool :=
  match v with
  | VUndefined | VNull => true
  | _ => false
  end.

(** The message of the [TypeError] raised by a property read on [null] or
    [undefined] (V8 wording). *)
Definition cannotRead (v : value) (key : string) : string :=
  "Cannot read properties of " ++ ToString v ++ " (reading '" ++ key ++ "')".

(** [v?.key] for the property names the server reads ([error], [title],
    [play], ...): none of them exists on a string, a number, a boolean or
    an array, so only objects answer with something else than
    [undefined]. *)
Definition getOpt (v : value) (key : string) : value :=
  match v with
  | VObject fields => lookup key fields
  | _ => VUndefined
  end.

(** [v.key]: as [v?.key], except that it throws on [null] and
    [undefined]. *)
Definition get (v : value) (key : string) : result value :=
  if nullish v then Throw (Error (cannotRead v key))
  else Ok (getOpt v key).

(** [v?.[0]]: the first element of an array, the first character of a
    string. *)
Definition first (v : value) : value :=
  match v with
  | VArray (x :: _) => x
  | VString (String c _) => VString (String c "")
  | VObject fields => lookup "0" fields
  | _ => VUndefined
  end.

End Js.

Notation "x <- m ;; k" := (Js.bind m (fun x => k))
  (at level 61, m at next level, right associativity).

Import Js.

(** ** Duration formatter *)

(** [l.map((part, index) => ...)]. *)
Fixpoint mapi {A B : Type} (f : A -> nat -> B) (index : nat) (l : list A) : list B :=
  match l with
  | [] => []
  | x :: r => f x index :: mapi f (S index) r
  end.

(** [formatDuration(seconds)].  For a number that passed the guard,
    [Math.floor(seconds / k)] is [Z.div] and [seconds % k] is [Z.rem]. *)
Definition formatDuration (seconds : value) : string :=
  if negb (truthy seconds) || isNaN seconds || lt seconds 0 then "Unknown"
  else
    match ToNumber seconds with
    | NaN => "Unknown"
    | Int sec =>
        let h := sec / 3600 in
        let m := Z.rem sec 3600 / 60 in
        let s := Z.rem sec 60 in
        let parts := if 0 <? h then [h; m; s] else [m; s] in
        Text.join ":"
          (mapi (fun part index =>
                   if Nat.eqb index 0 && (0 <? h)
                   then Text.ofZ part
                   else Text.padStart 2 "0" (Text.ofZ part))
                O parts)
    end.

(** ** Url: the [URL] class of the platform

    [new URL(input)] follows the basic URL parser of the WHATWG URL Standard
    with no base URL.  The parser below is that state machine written as
    functions: the input is cleaned, the scheme is read, and the remainder is
    cut into authority, path, query and fragment.  Domains that need
    Unicode processing are left out of the model: [parse] answers [None] on
    a host with characters outside ASCII, and a label in [xn--] form is
    taken as it stands. *)

Module Url.

Import Text.

(** A path is opaque text or a list of segments. *)
Inductive pathT : Type :=
| Opaque (s : string)
| Segments (l : list string).

(** The URL record. *)
Record t : Type := mk {
  scheme : string;
  username : string;
  password : string;
  host : option string;
  port : option Z;
  path : pathT;
  query : option string;
  fragment : option string
}.

(** *** Percent-encode sets *)

(** C0 controls and everything above [~] *)
Definition c0Control (c : ascii) : bool := (code c <=? 31) || (126 <? code c).
(** space, double quote, [<], [>], backtick *)
Definition fragmentSet (c : ascii) : bool := c0Control c || oneOf [32; 34; 60; 62; 96] c.
(** space, double quote, [#], [<], [>] *)
Definition querySet (c : ascii) : bool := c0Control c || oneOf [32; 34; 35; 60; 62] c.
(** and the single quote *)
Definition specialQuerySet (c : ascii) : bool := querySet c || oneOf [39] c.
(** and [?], [^], backtick, [{], [}] *)
Definition pathSet (c : ascii) : bool := querySet c || oneOf [63; 94; 96; 123; 125] c.
(** and [/], [:], [;], [=], [@], [[], backslash, []], [|] *)
Definition userinfoSet (c : ascii) : bool :=
  pathSet c || oneOf [47; 58; 59; 61; 64; 91; 92; 93; 124] c.
(** and [$], [%], [&], [+], [,] *)
Definition componentSet (c : ascii) : bool := userinfoSet c || oneOf [36; 37; 38; 43; 44] c.
(** and [!], ['], [(], [)], [~]: all but letters, digits, [*], [-], [.], [_] *)
Definition urlencodedSet (c : ascii) : bool := componentSet c || oneOf [33; 39; 40; 41; 126] c.

(** *** Input cleaning and scheme *)

(** Leading and trailing C0 controls and spaces are stripped, tabs and
    newlines are removed throughout. *)
Definition isC0OrSpace (c : ascii) : bool := code c <=? 32.
Definition isTabOrNewline (c : ascii) : bool := oneOf [9; 10; 13] c.

(** The input as the state machine sees it. *)
Definition clean (input : string) : string :=
  filter (fun c => negb (isTabOrNewline c))
    (dropWhileEnd isC0OrSpace (dropWhile isC0OrSpace input)).

(** plus, minus, dot *)
Definition isSchemeChar (c : ascii) : bool := isAlnum c || oneOf [43; 45; 46] c.

(** The scheme state: the lower-cased scheme and what follows the colon. *)
Fixpoint schemeState (s : string) : option (string * string) :=
  match s with
  | "" => None
  | String c r =>
      if Ascii.eqb c ":" then Some ("", r)
      else if isSchemeChar c then
        match schemeState r with
        | Some (a, b) => Some (String (lowerChar c) a, b)
        | None => None
        end
      else None
  end.

(** The scheme start state: a scheme begins with a letter; without one
    (and without a base URL) parsing fails. *)
Definition schemeStart (s : string) : option (string * string) :=
  match s with
  | "" => None
  | String c _ => if isAlpha c then schemeState s else None
  end.

(** The special schemes and their default ports. *)
Definition defaultPort (scheme : string) : option Z :=
  if (scheme =? "http")%string then Some 80
  else if (scheme =? "https")%string then Some 443
  else if (scheme =? "ws")%string then Some 80
  else if (scheme =? "wss")%string then Some 443
  else if (scheme =? "ftp")%string then Some 21
  else None.

(** A special scheme: [file] or one with a default port. *)
Definition isSpecial (scheme : string) : bool :=
  (scheme =? "file")%string ||
  match defaultPort scheme with Some _ => true | None => false end.

(** *** Hosts *)

(** Forbidden host and domain code points. *)
Definition forbiddenHost (c : ascii) : bool :=
  oneOf [0; 9; 10; 13; 32; 35; 47; 58; 60; 62; 63; 64; 91; 92; 93; 94; 124] c.

Definition forbiddenDomain (c : ascii) : bool :=
  forbiddenHost c || (code c <=? 31) || oneOf [37; 127] c.

(** A number written in the given radix. *)
Definition digitIn (radix : Z) (c : ascii) : bool :=
  isHexDigit c && (hexValue c <? radix).

Fixpoint numberIn (radix acc : Z) (s : string) : option Z :=
  match s with
  | "" => Some acc
  | String c r =>
      if digitIn radix c then numberIn radix (radix * acc + hexValue c) r
      else None
  end.

(** The IPv4 number parser: [0x] announces hexadecimal, a leading [0]
    octal. *)
Definition ipv4Number (s : string) : option Z :=
  match s with
  | "" => None
  | String c (String x r) =>
      if Ascii.eqb c "0" then
        if oneOf [88; 120] x then numberIn 16 0 r
        else numberIn 8 0 (String x r)
      else numberIn 10 0 s
  | _ => numberIn 10 0 s
  end.

(** The parts between dots, a last empty one dropped. *)
Definition dotParts (s : string) : list string :=
  let parts := split "." s in
  if (last parts "x" =? "")%string && (1 <? Z.of_nat (List.length parts))
  then removelast parts else parts.

(** The ends-in-a-number checker. *)
Definition endsInNumber (s : string) : bool :=
  let parts := split "." s in
  if (last parts "x" =? "")%string && (Z.of_nat (List.length parts) =? 1) then false
  else
    let final := last (dotParts s) "" in
    (negb (final =? "")%string && all isDigit final) ||
    match ipv4Number final with Some _ => true | None => false end.

(** All the values, if none is missing. *)
Fixpoint allSome {A : Type} (l : list (option A)) : option (list A) :=
  match l with
  | [] => Some []
  | None :: _ => None
  | Some a :: r => match allSome r with Some t => Some (a :: t) | None => None end
  end.

(** The IPv4 serializer. *)
Definition dotted (n : Z) : string :=
  ofZ (n / 16777216) ++ "." ++ ofZ (n / 65536 mod 256) ++ "." ++
  ofZ (n / 256 mod 256) ++ "." ++ ofZ (n mod 256).

(** The IPv4 parser and serializer. *)
Definition parseIPv4 (s : string) : option string :=
  let parts := dotParts s in
  if (4 <? Z.of_nat (List.length parts)) then None
  else
    match allSome (List.map ipv4Number parts) with
    | None => None
    | Some numbers =>
        let n := List.length numbers in
        let final := last numbers 0 in
        let front := removelast numbers in
        if existsb (fun x => 255 <? x) front then None
        else if 256 ^ (5 - Z.of_nat n) <=? final then None
        else
          Some (dotted (final +
                        fold_left Z.add
                          (mapi (fun x i => x * 256 ^ (3 - Z.of_nat i)) O front) 0))
    end.

(** An IPv6 address is cut at its first [::], if it has one. *)
Fixpoint cutCompress (s : string) : option (string * string) :=
  match s with
  | String a r =>
      match r with
      | String b r' =>
          if Ascii.eqb a ":" && Ascii.eqb b ":" then Some ("", r')
          else match cutCompress r with
               | Some (before, after) => Some (String a before, after)
               | None => None
               end
      | "" => None
      end
  | "" => None
  end.

(** One to four hexadecimal digits. *)
Definition hexPiece (s : string) : option Z :=
  if (s =? "")%string || (4 <? Z.of_nat (String.length s)) then None
  else numberIn 16 0 s.

(** A decimal number of an embedded IPv4 address: no leading zero, at most
    255. *)
Definition quadPart (s : string) : option Z :=
  match s with
  | "" => None
  | String c r =>
      if Ascii.eqb c "0" && negb (r =? "")%string then None
      else match decimal s with
           | Some n => if 255 <? n then None else Some n
           | None => None
           end
  end.

(** The two pieces an embedded IPv4 address stands for. *)
Definition dottedQuad (s : string) : option (list Z) :=
  match allSome (List.map quadPart (split "." s)) with
  | Some [a; b; c; d] => Some [a * 256 + b; c * 256 + d]
  | _ => None
  end.

(** The pieces between colons; only the last one may be an embedded IPv4
    address, and only where [embedded] allows it. *)
Fixpoint piecesOf (embedded : bool) (parts : list string) : option (list Z) :=
  match parts with
  | [] => Some []
  | [final] =>
      if embedded && any (Ascii.eqb ".") final then dottedQuad final
      else match hexPiece final with Some x => Some [x] | None => None end
  | part :: rest =>
      match hexPiece part, piecesOf embedded rest with
      | Some x, Some l => Some (x :: l)
      | _, _ => None
      end
  end.

(** The pieces of one side of an address; an empty side has none. *)
Definition pieces (embedded : bool) (s : string) : option (list Z) :=
  if (s =? "")%string then Some [] else piecesOf embedded (split ":" s).

(** The IPv6 parser: eight pieces, or fewer around one [::]. *)
Definition parseIPv6 (s : string) : option (list Z) :=
  match cutCompress s with
  | Some (before, after) =>
      match pieces false before, pieces true after with
      | Some a, Some b =>
          let n := (List.length a + List.length b)%nat in
          if (n <=? 7)%nat then Some (a ++ List.repeat 0 (8 - n) ++ b)%list else None
      | _, _ => None
      end
  | None =>
      match pieces true s with
      | Some a => if (List.length a =? 8)%nat then Some a else None
      | None => None
      end
  end.

(** The number of zero pieces at the head of [l]. *)
Fixpoint leadingZeros (l : list Z) : nat :=
  match l with
  | 0 :: r => S (leadingZeros r)
  | _ => O
  end.

(** Start and length of the first longest run of zero pieces. *)
Fixpoint longestRun (start : nat) (l : list Z) : nat * nat :=
  match l with
  | [] => (O, O)
  | _ :: r =>
      let here := leadingZeros l in
      let (s, n) := longestRun (S start) r in
      if (n <=? here)%nat then (start, here) else (s, n)
  end.

(** A piece in lower-case hexadecimal, without leading zeros. *)
Definition hexOf (n : Z) : string :=
  let digits :=
    List.map (fun d => lowerChar (hexDigit d))
             [n / 4096; n / 256 mod 16; n / 16 mod 16; n mod 16] in
  match dropWhile (Ascii.eqb "0") (string_of_list_ascii digits) with
  | "" => "0"
  | text => text
  end.

(** The IPv6 serializer, brackets included. *)
Definition serializeIPv6 (address : list Z) : string :=
  let (start, n) := longestRun O address in
  let colons l := String.concat ":" (List.map hexOf l) in
  "[" ++
  (if (2 <=? n)%nat
   then colons (firstn start address) ++ "::" ++ colons (skipn (start + n) address)
   else colons address) ++
  "]".

(** A byte outside ASCII. *)
Definition nonAscii (c : ascii) : bool := 127 <? code c.

(** The text between the brackets of an IPv6 host. *)
Definition bracketed (input : string) : option string :=
  match input with
  | String _ r =>
      match splitLast (Ascii.eqb "]") r with
      | Some (inner, "") => Some inner
      | _ => None
      end
  | "" => None
  end.

(** The host parser.  [opaque] is set for schemes that are not special. *)
Definition parseHost (opaque : bool) (input : string) : option string :=
  if startsWith "[" input then
    match bracketed input with
    | Some inner =>
        match parseIPv6 inner with
        | Some address => Some (serializeIPv6 address)
        | None => None
        end
    | None => None
    end
  else if opaque then
    if any forbiddenHost input then None
    else Some (percentEncode c0Control input)
  else
    let domain := percentDecode input in
    if any nonAscii domain then None
    else
      let asciiDomain := toLowerCase domain in
      if (asciiDomain =? "")%string then None
      else if any forbiddenDomain asciiDomain then None
      else if endsInNumber asciiDomain then parseIPv4 asciiDomain
      else Some asciiDomain.

(** The host state: the host ends at the first colon outside brackets, a
    port follows it. *)
Fixpoint splitHostPort (inside : bool) (s : string) : string * option string :=
  match s with
  | "" => ("", None)
  | String c r =>
      if Ascii.eqb c ":" && negb inside then ("", Some r)
      else
        let inside' :=
          if Ascii.eqb c "[" then true
          else if Ascii.eqb c "]" then false else inside in
        let (h, p) := splitHostPort inside' r in
        (String c h, p)
  end.

(** The port state; the outer [option] is failure, the inner one the
    null port. *)
Definition parsePort (scheme : string) (p : option string) : option (option Z) :=
  match p with
  | None => Some None
  | Some "" => Some None
  | Some digits =>
      match decimal digits with
      | None => None
      | Some n =>
          if 65535 <? n then None
          else if match defaultPort scheme with
                  | Some d => d =? n
                  | None => false
                  end
               then Some None
               else Some (Some n)
      end
  end.

(** User name and password, cut at the first colon. *)
Definition credentials (cred : string) : string * string :=
  let (u, p) := span (Ascii.eqb ":") cred in
  (percentEncode userinfoSet u,
   percentEncode userinfoSet (match p with "" => "" | String _ r => r end)).

(** *** Paths *)

(** Single-dot and double-dot path segments. *)
Definition isSingleDot (seg : string) : bool :=
  let l := toLowerCase seg in
  (l =? ".")%string || (l =? "%2e")%string.

Definition isDoubleDot (seg : string) : bool :=
  let l := toLowerCase seg in
  (l =? "..")%string || (l =? ".%2e")%string ||
  (l =? "%2e.")%string || (l =? "%2e%2e")%string.

(** A letter followed by a colon or, before normalisation, a bar. *)
Definition isDriveLetter (normalized : bool) (seg : string) : bool :=
  match seg with
  | String a (String b "") =>
      isAlpha a && (Ascii.eqb b ":" || (negb normalized && Ascii.eqb b "|"))
  | _ => false
  end.

(** Shorten a path: drop its last segment, a drive letter excepted. *)
Definition shorten (isFile : bool) (acc : list string) : list string :=
  match acc with
  | [only] => if isFile && isDriveLetter true only then acc else []
  | _ => removelast acc
  end.

(** The path state, one segment at a time. *)
Fixpoint pathState (isFile : bool) (acc : list string) (segs : list string)
  : list string :=
  match segs with
  | [] => acc
  | seg :: more =>
      let final := match more with [] => true | _ => false end in
      if isDoubleDot seg then
        let acc' := shorten isFile acc in
        pathState isFile (if final then acc' ++ [""] else acc') more
      else if isSingleDot seg then
        pathState isFile (if final then acc ++ [""] else acc) more
      else
        let seg' :=
          match acc, seg with
          | [], String a (String _ "") =>
              if isFile && isDriveLetter false seg then String a ":" else seg
          | _, _ => seg
          end in
        pathState isFile (acc ++ [seg']) more
  end.

(** A segment ends at a slash and, in a special URL, at a backslash. *)
Definition isSlash (special : bool) (c : ascii) : bool :=
  Ascii.eqb c "/" || (special && Ascii.eqb c "\").

(** The segments of a path text. *)
Definition segmentsOf (special isFile : bool) (s : string) : list string :=
  pathState isFile [] (splitBy (isSlash special) (percentEncode pathSet s)).

(** The path start state consumes one leading slash. *)
Definition dropSlash (special : bool) (s : string) : string :=
  match s with
  | String c r => if isSlash special c then r else s
  | "" => ""
  end.

(** [#] or [?] *)
Definition isQueryOrFragmentStart (c : ascii) : bool := oneOf [35; 63] c.

(** What follows the path: the query after [?] and the fragment after
    [#], both percent-encoded. *)
Definition queryAndFragment (special : bool) (rest : string)
  : option string * option string :=
  let enc := percentEncode (if special then specialQuerySet else querySet) in
  let frag f := Some (percentEncode fragmentSet f) in
  match rest with
  | String c r =>
      if Ascii.eqb c "?" then
        let (q, f) := span (Ascii.eqb "#") r in
        (Some (enc q), match f with "" => None | String _ f' => frag f' end)
      else (None, frag r)
  | "" => (None, None)
  end.

(** *** The parser *)

(** From the authority state on. *)
Definition authorityState (scheme : string) (special : bool) (input : string)
  : option t :=
  let (auth, tail) :=
    span (fun c => isSlash special c || isQueryOrFragmentStart c) input in
  let (cred, hostport) :=
    match splitLast (Ascii.eqb "@") auth with
    | Some (a, b) => (Some a, b)
    | None => (None, auth)
    end in
  let (hostText, portText) := splitHostPort false hostport in
  let missing :=
    (hostText =? "")%string &&
    (special ||
     match cred with Some _ => true | None => false end ||
     match portText with Some _ => true | None => false end) in
  if missing then None
  else
    match parseHost (negb special) hostText, parsePort scheme portText with
    | Some h, Some p =>
        let (pathText, rest) := span isQueryOrFragmentStart tail in
        let (q, f) := queryAndFragment special rest in
        let (u, pw) := match cred with Some c => credentials c | None => ("", "") end in
        let segs :=
          if special then segmentsOf true false (dropSlash true pathText)
          else match pathText with
               | "" => []
               | _ => segmentsOf false false (dropSlash false pathText)
               end in
        Some (mk scheme u pw (Some h) p (Segments segs) q f)
    | _, _ => None
    end.

(** From the file state on. *)
Definition fileState (input : string) : option t :=
  let (before, rest) := span isQueryOrFragmentStart input in
  let (q, f) := queryAndFragment true rest in
  let done h segs := Some (mk "file" "" "" (Some h) None (Segments segs) q f) in
  match before with
  | String a (String b r) =>
      if isSlash true a && isSlash true b then
        let (hostText, pathText) := span (isSlash true) r in
        if isDriveLetter false hostText then done "" (segmentsOf true true r)
        else if (hostText =? "")%string then
          done "" (segmentsOf true true (dropSlash true pathText))
        else
          match parseHost false hostText with
          | None => None
          | Some h =>
              done (if (h =? "localhost")%string then "" else h)
                   (segmentsOf true true (dropSlash true pathText))
          end
      else if isSlash true a then done "" (segmentsOf true true (String b r))
      else done "" (segmentsOf true true before)
  | String a "" =>
      if isSlash true a then done "" (segmentsOf true true "")
      else done "" (segmentsOf true true before)
  | "" => done "" (segmentsOf true true "")
  end.

(** The opaque path state: a space right before the query or the
    fragment is encoded, the other characters follow the C0 control
    set. *)
Fixpoint opaquePath (followed : bool) (s : string) : string :=
  match s with
  | "" => ""
  | String c "" =>
      if Ascii.eqb c " " && followed then "%20"
      else percentEncode c0Control (String c "")
  | String c r => percentEncode c0Control (String c "") ++ opaquePath followed r
  end.

(** [new URL(input)]: [None] stands for the [TypeError] it throws. *)
Definition parse (input : string) : option t :=
  match schemeStart (clean input) with
  | None => None
  | Some (scheme, rest) =>
      if (scheme =? "file")%string then fileState rest
      else if isSpecial scheme then
        authorityState scheme true (dropWhile (isSlash true) rest)
      else
        match rest with
        | String a r =>
            if Ascii.eqb a "/" then
              match r with
              | String b r' =>
                  if Ascii.eqb b "/" then authorityState scheme false r'
                  else
                    let (pathText, tail) := span isQueryOrFragmentStart r in
                    let (q, f) := queryAndFragment false tail in
                    Some (mk scheme "" "" None None
                            (Segments (segmentsOf false false pathText)) q f)
              | "" =>
                  Some (mk scheme "" "" None None (Segments [""]) None None)
              end
            else
              let (pathText, tail) := span isQueryOrFragmentStart rest in
              let (q, f) := queryAndFragment false tail in
              Some (mk scheme "" "" None None
                      (Opaque (opaquePath (negb (tail =? "")%string) pathText)) q f)
        | "" => Some (mk scheme "" "" None None (Opaque "") None None)
        end
  end.

(** *** Getters and the serializer *)

(** [u.protocol], [u.hostname], [u.pathname]. *)
Definition protocol (u : t) : string := scheme u ++ ":".

Definition hostname (u : t) : string :=
  match host u with Some h => h | None => "" end.

Definition pathname (u : t) : string :=
  match path u with
  | Opaque s => s
  | Segments l => String.concat "" (List.map (fun seg => "/" ++ seg) l)
  end.

(** [u.toString()], the URL serializer. *)
Definition href (u : t) : string :=
  protocol u ++
  match host u with
  | Some h =>
      "//" ++
      (if (username u =? "")%string && (password u =? "")%string then ""
       else username u ++
            (if (password u =? "")%string then "" else ":" ++ password u) ++ "@") ++
      h ++
      match port u with Some p => ":" ++ ofZ p | None => "" end
  | None =>
      match path u with
      | Segments ("" :: _ :: _) => "/."
      | _ => ""
      end
  end ++
  pathname u ++
  match query u with Some q => "?" ++ q | None => "" end ++
  match fragment u with Some f => "#" ++ f | None => "" end.

(** *** [searchParams] *)

Definition plusToSpace (c : ascii) : ascii := if Ascii.eqb c "+" then " "%char else c.

(** The [application/x-www-form-urlencoded] parser. *)
Definition parseParams (q : string) : list (string * string) :=
  List.map
    (fun piece =>
       let (name, rest) := span (Ascii.eqb "=") piece in
       let value := match rest with "" => "" | String _ r => r end in
       (percentDecode (map plusToSpace name), percentDecode (map plusToSpace value)))
    (List.filter (fun piece => negb (piece =? "")%string) (split "&" q)).

Fixpoint formEncode (s : string) : string :=
  match s with
  | "" => ""
  | String c r =>
      if Ascii.eqb c " " then String "+" (formEncode r)
      else if urlencodedSet c then percent c ++ formEncode r
      else String c (formEncode r)
  end.

(** The [application/x-www-form-urlencoded] serializer. *)
Definition serializeParams (l : list (string * string)) : string :=
  String.concat "&"
    (List.map (fun kv => formEncode (fst kv) ++ "=" ++ formEncode (snd kv)) l).

Definition params (u : t) : list (string * string) :=
  match query u with Some q => parseParams q | None => [] end.

(** [u.searchParams.get(name)]; [None] is [null]. *)
Definition searchParamsGet (u : t) (name : string) : option string :=
  match List.find (fun kv => (fst kv =? name)%string) (params u) with
  | Some kv => Some (snd kv)
  | None => None
  end.

Fixpoint setFirst (name value : string) (l : list (string * string))
  : list (string * string) :=
  match l with
  | [] => [(name, value)]
  | kv :: r =>
      if (fst kv =? name)%string
      then (name, value) :: List.filter (fun x => negb (fst x =? name)%string) r
      else kv :: setFirst name value r
  end.

(** [u.searchParams.set(name, value)], with the update of the query it
    performs on [u]. *)
Definition searchParamsSet (u : t) (name value : string) : t :=
  let q := serializeParams (setFirst name value (params u)) in
  mk (scheme u) (username u) (password u) (host u) (port u) (path u)
     (if (q =? "")%string then None else Some q) (fragment u).

End Url.

(** ** The server: URL classifier and YouTube normalizer *)

Definition PLATFORM_DOMAINS : list (string * list string) :=
  [ ("YouTube", ["youtube.com"; "www.youtube.com"; "youtu.be"; "m.youtube.com"]);
    ("TikTok", ["tiktok.com"; "www.tiktok.com"; "vm.tiktok.com"]);
    ("Facebook", ["facebook.com"; "www.facebook.com"; "m.facebook.com"; "fb.watch"]) ].

Definition TIKTOK_API_URL : string := "https://www.tikwm.com/api/".
Definition NOEMBED_API_URL : string := "https://noembed.com/embed".

(** [isValidUrl(string)]. *)
Definition isValidUrl (string : String.string) : bool :=
  match Url.parse string with
  | Some url =>
      (Url.protocol url =? "http:")%string || (Url.protocol url =? "https:")%string
  | None => false
  end.

(** The loop of [extractPlatform] over [Object.entries(PLATFORM_DOMAINS)]. *)
Fixpoint firstPlatform (hostname : string) (entries : list (string * list string))
  : option string :=
  match entries with
  | [] => None
  | (platform, domains) :: rest =>
      if existsb (fun domain => Text.includes hostname domain) domains
      then Some platform
      else firstPlatform hostname rest
  end.

(** [extractPlatform(url)]; [None] is [null]. *)
Definition extractPlatform (url : string) : option string :=
  match Url.parse url with
  | Some u =>
      let hostname := Text.toLowerCase (Url.hostname u) in
      firstPlatform hostname PLATFORM_DOMAINS
  | None => None
  end.

(** [!v] for a value that is a string, [null] or [undefined]. *)
Definition absent (v : option string) : bool :=
  match v with
  | None | Some "" => true
  | Some _ => false
  end.

(** [cleanYouTubeUrl(url)]. *)
Definition cleanYouTubeUrl (url : string) : string :=
  match Url.parse url with
  | None => url
  | Some urlObj =>
      let videoId :=
        if Text.includes (Url.hostname urlObj) "youtu.be" ||
           Text.includes (Url.pathname urlObj) "/shorts/"
        then
          let pathSegments := Text.split "/" (Url.pathname urlObj) in
          List.find
            (fun segment =>
               (10 <=? String.length segment)%nat && (String.length segment <=? 11)%nat)
            pathSegments
        else None in
      let videoId :=
        if absent videoId && Text.includes (Url.hostname urlObj) "youtube.com"
        then Url.searchParamsGet urlObj "v"
        else videoId in
      match videoId with
      | Some id =>
          if absent videoId then url
          else
            match Url.parse "https://www.youtube.com/watch" with
            | Some cleanUrl => Url.href (Url.searchParamsSet cleanUrl "v" id)
            | None => url
            end
      | None => url
      end
  end.

(** [extractYouTubeId(url)]; [None] is [null]. *)
Definition extractYouTubeId (url : string) : option string :=
  match Url.parse url with
  | Some urlObj => Url.searchParamsGet urlObj "v"
  | None => None
  end.

(** The global [encodeURIComponent]: letters, digits and the marks
    [- _ . ! ~ * ' ( )] are kept. *)
Definition encodeURIComponent (s : string) : string :=
  Text.percentEncode
    (fun c => negb (Text.isAlnum c || Text.oneOf [45; 95; 46; 33; 126; 42; 39; 40; 41] c))
    s.

(** ** The server: metadata providers *)

(** An entry of [options]; a property the provider does not set is
    [None]. *)
Record DownloadOption : Type := mkOption {
  id : string;
  format_id : option string;
  label : string;
  ext : string;
  quality : string;
  url : option value;
  hasAudio : option value
}.

(** The record a provider returns; [video_id] is its [id] property. *)
Record VideoMetadata : Type := mkMetadata {
  video_id : value;
  title : value;
  uploader : value;
  duration : string;
  thumbnail : value;
  description : value;
  viewCount : value;
  uploadDate : option value;
  options : list DownloadOption;
  platform : string
}.

(** What the outside world answers.  [axios_get url] and
    [axios_post url body] give [response.data] or the error the client
    throws; [axios_stream url] is the streaming request of the download
    endpoint; [Date_now] is the clock. *)
Record World : Type := mkWorld {
  axios_get : string -> result value;
  axios_post : string -> value -> result value;
  axios_stream : value -> result unit;
  Date_now : Z
}.

(** [error.response?.data?.error || error.message]. *)
Definition upstreamMessage (e : error) : value :=
  Js.or (match response e with Some data => getOpt data "error" | None => VUndefined end)
        (VString (message e)).

(** An option without a resolved link, as the YouTube and Facebook providers
    list them. *)
Definition external (id label ext quality : string) : DownloadOption :=
  mkOption id None label ext quality None None.

(** [getYouTubeMetadata(url)]. *)
Definition getYouTubeMetadata (w : World) (url : string) : result VideoMetadata :=
  match extractYouTubeId url with
  | None | Some "" =>
      Throw (Error "YouTube: Invalid video URL or ID could not be extracted.")
  | Some videoId =>
      match
        data <- axios_get w (NOEMBED_API_URL ++ "?url=" ++ encodeURIComponent url) ;;
        err <- get data "error" ;;
        if truthy err then Throw (Error (ToString err))
        else
          let qualityOptions :=
            [ external "best" "Best Quality (External)" "mp4" "1080p";
              external "720p" "HD 720p (External)" "mp4" "720p";
              external "480p" "SD 480p (External)" "mp4" "480p";
              external "audio" "Audio Only (External)" "mp3" "audio" ] in
          Ok {| video_id := VString videoId;
                title := Js.or (getOpt data "title") (VString "YouTube Video");
                uploader := Js.or (getOpt data "author_name") (VString "YouTube");
                duration := "Unknown";
                thumbnail :=
                  VString ("https://img.youtube.com/vi/" ++ videoId ++ "/maxresdefault.jpg");
                description := Js.or (getOpt data "title") (VString "");
                viewCount := VNull;
                uploadDate := Some VNull;
                options := qualityOptions;
                platform := "YouTube" |}
      with
      | Ok metadata => Ok metadata
      | Throw error =>
          let errorMessage := upstreamMessage error in
          Throw (Error ("YouTube: Could not fetch video information. Reason: "
                        ++ ToString errorMessage))
      end
  end.

(** [getTikTokMetadata(url)]. *)
Definition getTikTokMetadata (w : World) (url : string) : result VideoMetadata :=
  match
    responseData <- axios_post w TIKTOK_API_URL (VObject [("url", VString url)]) ;;
    code <- get responseData "code" ;;
    payload <- get responseData "data" ;;
    if negb (strictEq code (VNumber (Int 0))) || negb (truthy payload) then
      msg <- get responseData "msg" ;;
      let errorMsg := Js.or msg (VString "Video not found or unavailable.") in
      Throw (Error ("TikTok API Error: " ++ ToString errorMsg))
    else
      let data := payload in
      play <- get data "play" ;;
      wmplay <- get data "wmplay" ;;
      let qualityOptions :=
        ((if truthy play
          then [mkOption "nowm" (Some "nowm") "HD (No Watermark)" "mp4" "best"
                  (Some play) None]
          else []) ++
         (if truthy wmplay
          then [mkOption "wm" (Some "wm") "Standard (With Watermark)" "mp4" "standard"
                  (Some wmplay) None]
          else []))%list in
      if (List.length qualityOptions =? 0)%nat then
        Throw (Error "No video formats available for this TikTok.")
      else
        let author := getOpt data "author" in
        Ok {| video_id :=
                Js.or (getOpt data "id") (VString ("tiktok-" ++ Text.ofZ (Date_now w)));
              title := Js.or (getOpt data "title") (VString "TikTok Video");
              uploader :=
                Js.or (Js.or (getOpt author "nickname") (getOpt author "unique_id"))
                      (VString "TikTok User");
              duration := formatDuration (getOpt data "duration");
              thumbnail :=
                Js.or (Js.or (getOpt data "cover") (first (getOpt data "images"))) VNull;
              description := Js.or (getOpt data "title") (VString "");
              viewCount := getOpt data "play_count";
              uploadDate := None;
              options := qualityOptions;
              platform := "TikTok" |}
  with
  | Ok metadata => Ok metadata
  | Throw error => Throw (Error ("TikTok: " ++ message error))
  end.

(** [getFacebookMetadata(url)]. *)
Definition getFacebookMetadata (w : World) (url : string) : result VideoMetadata :=
  match
    data <- axios_get w (NOEMBED_API_URL ++ "?url=" ++ encodeURIComponent url) ;;
    err <- get data "error" ;;
    if truthy err then Throw (Error (ToString err))
    else
      let qualityOptions :=
        [ external "best" "Best Quality (External)" "mp4" "best";
          external "sd" "Standard Quality (External)" "mp4" "480p";
          external "audio" "Audio Only (External)" "mp3" "audio" ] in
      let videoId :=
        match last (Text.split "/" url) "" with
        | "" => "fb-" ++ Text.ofZ (Date_now w)
        | segment => segment
        end in
      Ok {| video_id := VString videoId;
            title := Js.or (getOpt data "title") (VString "Facebook Video");
            uploader := Js.or (getOpt data "author_name") (VString "Facebook");
            duration := "Unknown";
            thumbnail := Js.or (getOpt data "thumbnail_url") VNull;
            description := Js.or (getOpt data "title") (VString "");
            viewCount := VNull;
            uploadDate := None;
            options := qualityOptions;
            platform := "Facebook" |}
  with
  | Ok metadata => Ok metadata
  | Throw error =>
      let errorMessage := upstreamMessage error in
      Throw (Error ("Facebook: Could not fetch video information. Reason: "
                    ++ ToString errorMessage))
  end.

(** ** The server: request handlers *)

(** [req.query], as the query-string parser of the framework builds it: a
    parameter given once is a string, a repeated one an array, a bracketed
    one an object. *)
Record Request : Type := mkRequest {
  query : list (string * value)
}.

Inductive Body : Type :=
| Failure (error : string)        (* { success: false, error } *)
| Data (data : VideoMetadata).    (* { success: true, data } *)

(** What a handler leaves behind: a JSON answer, a redirect, a piped
    stream with its headers, a rejected promise (the handler threw outside
    any [try]), or no answer at all. *)
Inductive Outcome : Type :=
| Json (status : Z) (body : Body)
| Redirect (status : Z) (location : string)
| Pipe (headers : list (string * string)) (source : value)
| Rejected (e : error)
| Unanswered.

(** [req.query.url?.trim()]; [None] is [undefined]. *)
Definition trimmed (v : value) : result (option string) :=
  match v with
  | VUndefined | VNull => Ok None
  | VString s => Ok (Some (Text.trim s))
  | _ => Throw (Error "req.query.url?.trim is not a function")
  end.

(** The status the metadata endpoint derives from an error message. *)
Definition statusCodeFor (errorMessage : string) : Z :=
  if Text.includes errorMessage "not found" ||
     Text.includes errorMessage "unavailable"
  then 404
  else if Text.includes errorMessage "Invalid" ||
          Text.includes errorMessage "Unsupported"
  then 400
  else if Text.includes errorMessage "timeout"
  then 504
  else 500.

(** The [try] block of the metadata endpoint up to the provider's answer. *)
Definition fetchMetadata (w : World) (platform rawUrl : string) : result VideoMetadata :=
  if (platform =? "YouTube")%string then
    let url := cleanYouTubeUrl rawUrl in
    getYouTubeMetadata w url
  else if (platform =? "TikTok")%string then getTikTokMetadata w rawUrl
  else if (platform =? "Facebook")%string then getFacebookMetadata w rawUrl
  else Throw (Error "Platform mismatch").

(** [GET /api/metadata]. *)
Definition metadataHandler (w : World) (req : Request) : Outcome :=
  match trimmed (lookup "url" (query req)) with
  | Throw e => Rejected e
  | Ok rawUrl =>
      match rawUrl with
      | None | Some "" => Json 400 (Failure "URL parameter is required.")
      | Some rawUrl =>
          if negb (isValidUrl rawUrl) then
            Json 400 (Failure "Invalid URL format. Must include http:// or https://")
          else
            match extractPlatform rawUrl with
            | None =>
                let supported := Text.join ", " (List.map fst PLATFORM_DOMAINS) in
                Json 400 (Failure ("Unsupported platform. Supported: " ++ supported))
            | Some platform =>
                match fetchMetadata w platform rawUrl with
                | Ok metadata => Json 200 (Data metadata)
                | Throw error =>
                    let errorMessage := message error in
                    Json (statusCodeFor errorMessage) (Failure errorMessage)
                end
            end
      end
  end.

(** [a || b] on the results of [Array.prototype.find]: an option record is
    an object, hence truthy. *)
Definition orElse {A : Type} (a b : option A) : option A :=
  match a with
  | Some _ => a
  | None => b
  end.

(** The option the TikTok download serves. *)
Definition selectOption (options : list DownloadOption) (format : value)
  : option DownloadOption :=
  orElse (List.find (fun opt => strictEq (VString (id opt)) format) options)
    (orElse (List.find (fun opt => (id opt =? "nowm")%string) options)
            (List.hd_error options)).

(** [!selectedOption.url]. *)
Definition lacksUrl (opt : DownloadOption) : bool :=
  match url opt with
  | Some v => negb (truthy v)
  | None => true
  end.

(** The double quote character, as a string. *)
Definition quote : string := String (ascii_of_nat 34) "".

(** [title.replace(/[^a-z0-9]/gi, "_").toLowerCase()]. *)
Definition sanitize (title : string) : string :=
  Text.toLowerCase
    (Text.map (fun c => if Text.isAlnum c then c else "_"%char) title).

(** The TikTok branch of the download endpoint, from the metadata on. *)
Definition tiktokDownload (w : World) (metadata : VideoMetadata) (format : value)
  : result Outcome :=
  let selectedOption := selectOption (options metadata) format in
  match selectedOption with
  | None => Throw (Error "No valid download URL found for the selected format.")
  | Some selected =>
      if lacksUrl selected then
        Throw (Error "No valid download URL found for the selected format.")
      else
        let source := match url selected with Some v => v | None => VUndefined end in
        _ <- axios_stream w source ;;
        let ext := match ext selected with "" => "mp4" | e => e end in
        match title metadata with
        | VString t =>
            let filename := sanitize t ++ "." ++ ext in
            Ok (Pipe
                  [ ("Content-Disposition",
                     "attachment; filename=" ++ quote ++ filename ++ quote);
                    ("Content-Type",
                     match hasAudio selected with
                     | Some (VBool false) => "audio/mpeg"
                     | _ => "video/mp4"
                     end) ]
                  source)
        | _ => Throw (Error "metadata.title.replace is not a function")
        end
  end.

(** The [try] block of the download endpoint. *)
Definition downloadAttempt (API_KEY : string) (w : World) (req : Request)
  : result Outcome :=
  url <- trimmed (lookup "url" (query req)) ;;
  let format := lookup "format" (query req) in
  let key := lookup "key" (query req) in
  if negb (API_KEY =? "")%string && negb (strictEq key (VString API_KEY)) then
    Ok (Json 401 (Failure "Invalid API key."))
  else
    match url with
    | None | Some "" => Ok (Json 400 (Failure "Invalid or missing URL parameter."))
    | Some url =>
        if negb (isValidUrl url) then
          Ok (Json 400 (Failure "Invalid or missing URL parameter."))
        else
          match extractPlatform url with
          | None => Ok (Json 400 (Failure "Unsupported platform for download."))
          | Some platform =>
              if (platform =? "YouTube")%string then
                let cleanUrl := cleanYouTubeUrl url in
                let downloadUrl :=
                  "https://loader.to/api/download/?url=" ++
                  encodeURIComponent cleanUrl ++ "&format=mp4" in
                Ok (Redirect 302 downloadUrl)
              else if (platform =? "Facebook")%string then
                let downloadUrl :=
                  "https://getmyfb.com/process/?url=" ++ encodeURIComponent url in
                Ok (Redirect 302 downloadUrl)
              else if (platform =? "TikTok")%string then
                metadata <- getTikTokMetadata w url ;;
                tiktokDownload w metadata format
              else Ok Unanswered
          end
    end.

(** The [catch] block of the download endpoint.  Nothing is written to the
    response before an exception can occur, so [res.headersSent] is false
    when it runs. *)
Definition downloadCatch (error : error) : Outcome :=
  let statusCode :=
    if Text.includes (message error) "No valid download URL" then 404 else 500 in
  Json statusCode (Failure ("Download failed: " ++ message error)).

(** [try { ... } catch (error) { ... }] around an attempt. *)
Definition caught (attempt : result Outcome) : Outcome :=
  match attempt with
  | Ok outcome => outcome
  | Throw error => downloadCatch error
  end.

(** [GET /api/download]. *)
Definition downloadHandler (API_KEY : string) (w : World) (req : Request) : Outcome :=
  caught (downloadAttempt API_KEY w req).

(** ** The server: configuration *)



(** * Specification vocabulary

    The relations and predicates below restate, in the words of the
    specification, what the properties are about. *)

(** [firstWith P l x]: [x] is the first element of [l] that satisfies
    [P]. *)
Inductive firstWith {A : Type} (P : A -> Prop) : list A -> A -> Prop :=
| first_here x l : P x -> firstWith P (x :: l) x
| first_later y l x : ~ P y -> firstWith P l x -> firstWith P (y :: l) x.

(** An entry of the platform table matches a host name when one of its
    domains occurs in it. *)
Definition matchesEntry (hostname : string) (entry : string * list string) : Prop :=
  exists domain, In domain (snd entry) /\ Text.includes hostname domain = true.

(** The status rule in the words of the specification: the first matching
    line decides. *)
Inductive statusRule (msg : string) : Z -> Prop :=
| rule_not_found :
    Text.includes msg "not found" = true \/ Text.includes msg "unavailable" = true ->
    statusRule msg 404
| rule_invalid :
    Text.includes msg "not found" = false ->
    Text.includes msg "unavailable" = false ->
    Text.includes msg "Invalid" = true \/ Text.includes msg "Unsupported" = true ->
    statusRule msg 400
| rule_timeout :
    Text.includes msg "not found" = false ->
    Text.includes msg "unavailable" = false ->
    Text.includes msg "Invalid" = false ->
    Text.includes msg "Unsupported" = false ->
    Text.includes msg "timeout" = true ->
    statusRule msg 504
| rule_other :
    Text.includes msg "not found" = false ->
    Text.includes msg "unavailable" = false ->
    Text.includes msg "Invalid" = false ->
    Text.includes msg "Unsupported" = false ->
    Text.includes msg "timeout" = false ->
    statusRule msg 500.

(** The message of the provider when the payload has no link. *)
Definition noFormats : string := "TikTok: No video formats available for this TikTok.".

(** The key gate: a key is configured and the supplied one differs. *)
Definition keyRejected (API_KEY : string) (req : Request) : bool :=
  negb (API_KEY =? "")%string &&
  negb (strictEq (lookup "key" (query req)) (VString API_KEY)).

(** The fallback chain in the words of the specification: the option whose
    id is the requested format, else the option with id "nowm", else the
    first option. *)
Inductive chosen (options : list DownloadOption) (format : value)
  : option DownloadOption -> Prop :=
| chosen_by_format f opt :
    format = VString f ->
    firstWith (fun x => id x = f) options opt ->
    chosen options format (Some opt)
| chosen_no_watermark opt :
    (forall f, format = VString f -> Forall (fun x => id x <> f) options) ->
    firstWith (fun x => id x = "nowm") options opt ->
    chosen options format (Some opt)
| chosen_first :
    (forall f, format = VString f -> Forall (fun x => id x <> f) options) ->
    Forall (fun x => id x <> "nowm") options ->
    chosen options format (List.hd_error options).

(** The error of the download endpoint when no link can be served. *)
Definition noUrlFound : string :=
  "Download failed: No valid download URL found for the selected format.".

(** The alphabet of video identifiers: letters, digits, [-] and [_]. *)
Definition isIdChar (c : ascii) : bool := Text.isAlnum c || Text.oneOf [45; 95] c.

(** A video identifier: 10 or 11 characters of that alphabet. *)
Definition isVideoId (ID : string) : bool :=
  (10 <=? String.length ID)%nat && (String.length ID <=? 11)%nat &&
  Text.all isIdChar ID.

(** A character that the input cleaning of the URL parser leaves alone. *)
Definition isPrintable (c : ascii) : bool := negb (Url.isC0OrSpace c).

(** [rejects q p]: no character accepted by [q] is accepted by [p]. *)
Definition rejects (q p : ascii -> bool) : Prop :=
  forall c, q c = true -> p c = false.

(** The no-watermark option of the TikTok provider. *)
Definition noWatermark (link : value) : DownloadOption :=
  mkOption "nowm" (Some "nowm") "HD (No Watermark)" "mp4" "best" (Some link) None.

(** The watermarked option. *)
Definition watermarked (link : value) : DownloadOption :=
  mkOption "wm" (Some "wm") "Standard (With Watermark)" "mp4" "standard" (Some link) None.

(** The characters of a sanitized title. *)
Definition isFileNameChar (c : ascii) : bool :=
  Text.isLower c || Text.isDigit c || Ascii.eqb c "_".

(** The characters [encodeURIComponent] can produce. *)
Definition isUriSafe (c : ascii) : bool :=
  Text.isAlnum c || Text.oneOf [45; 95; 46; 33; 126; 42; 39; 40; 41; 37] c.

(** The three forms of a YouTube URL that name a video. *)
Definition youtubeForms (ID : string) : list string :=
  [ "https://youtu.be/" ++ ID;
    "https://youtube.com/watch?v=" ++ ID;
    "https://youtube.com/shorts/" ++ ID ].

(** The characters the form serializer can produce. *)
Definition isFormChar (c : ascii) : bool :=
  Text.isAlnum c || Text.oneOf [42; 45; 46; 95; 43; 37] c.


(** The message of the HTTP client when a request exceeds its timeout. *)
Definition timeoutOf (milliseconds : Z) : string :=
  "timeout of " ++ Text.ofZ milliseconds ++ "ms exceeded".

(** The two decimal digits of a number below one hundred. *)
Definition twoDigits (n : Z) : string :=
  String (ascii_of_N (Z.to_N (48 + n / 10)))
         (String (ascii_of_N (Z.to_N (48 + n mod 10))) "").

(** * Sample inputs *)

(** A world in which the oEmbed service answers with a title only, the
    TikTok resolver with one watermarked link, and every stream opens. *)
Definition sampleWorld : World :=
  mkWorld
    (fun _ => Ok (VObject [("title", VString "A clip")]))
    (fun _ _ =>
       Ok (VObject [("code", VNumber (Int 0));
                    ("data", VObject [("title", VString "My Vid!");
                                      ("wmplay", VString "https://cdn.example/x.mp4")])]))
    (fun _ => Ok tt)
    1700000000000.

(** A world whose TikTok resolver reports that the video is gone. *)
Definition goneWorld : World :=
  mkWorld
    (fun _ => Throw (Error "timeout of 8000ms exceeded"))
    (fun _ _ => Ok (VObject [("code", VNumber (Int (-1)));
                             ("msg", VString "Video not found")]))
    (fun _ => Ok tt)
    0.

(** A world whose TikTok resolver answers with a payload that has no
    link. *)
Definition barrenWorld : World :=
  mkWorld
    (fun _ => Ok (VObject []))
    (fun _ _ => Ok (VObject [("code", VNumber (Int 0));
                             ("data", VObject [("id", VString "7301");
                                               ("title", VString "Slides")])]))
    (fun _ => Ok tt)
    0.

(** A metadata request for a TikTok short link, with spaces around it. *)
Definition tiktokRequest : Request :=
  mkRequest [("url", VString " https://vm.tiktok.com/xyz ")].

(** A request that repeats the [url] parameter and carries a wrong key. *)
Definition repeatedUrlRequest : Request :=
  mkRequest [("url", VArray [VString "https://youtu.be/abcdefghijk";
                             VString "https://youtu.be/abcdefghijk"]);
             ("key", VString "wrong")].

(** A record whose only option has no link: the download answers 404. *)
Definition linklessMetadata : VideoMetadata :=
  mkMetadata (VString "7301") (VString "Slides") (VString "TikTok User") "Unknown"
             VNull (VString "") VUndefined None
             [external "nowm" "HD (No Watermark)" "mp4" "best"] "TikTok".

(** A world whose TikTok resolver reports a failure without a message. *)
Definition silentWorld : World :=
  mkWorld
    (fun _ => Ok (VObject []))
    (fun _ _ => Ok (VObject [("code", VNumber (Int (-1)))]))
    (fun _ => Ok tt)
    0.

(** A world whose TikTok resolver gives both links. *)
Definition fullWorld : World :=
  mkWorld
    (fun _ => Ok (VObject []))
    (fun _ _ =>
       Ok (VObject [("code", VNumber (Int 0));
                    ("data", VObject [("title", VString "Cat: 1st Jump!");
                                      ("play", VString "https://cdn.example/clean.mp4");
                                      ("wmplay", VString "https://cdn.example/marked.mp4")])]))
    (fun _ => Ok tt)
    0.

(** A world in which every outbound request times out. *)
Definition slowWorld : World :=
  mkWorld
    (fun _ => Throw (Error (timeoutOf 8000)))
    (fun _ _ => Throw (Error (timeoutOf 10000)))
    (fun _ => Throw (Error (timeoutOf 30000)))
    0.

(** * Tactics *)

(** Case analysis on the innermost scrutinee a hypothesis still branches
    on. *)
Ltac crack H :=
  repeat match type of H with
         | context [match ?x with _ => _ end] =>
             lazymatch x with
             | context [match _ with _ => _ end] => fail
             | _ => destruct x eqn:?; cbn [bind] in H; try discriminate H
             end
         end.

(** A fact about one character, settled on each of the 256. *)
Ltac by_enumeration :=
  let c := fresh "c" in
  let H := fresh "H" in
  intros c H;
  destruct c as [b0 b1 b2 b3 b4 b5 b6 b7];
  destruct b0, b1, b2, b3, b4, b5, b6, b7;
  try discriminate H; reflexivity.

(** * Properties *)

(** ** Duration formatter *)

(** At 0 the guard [!seconds] fires: no digits are produced. *)
Lemma formatDuration_zero : formatDuration (VNumber (Int 0)) = "Unknown".
Proof. reflexivity. Qed.

(** Below one hour the minutes lead, padded to two digits. *)
Lemma formatDuration_minutes (sec : Z) :
  0 < sec < 3600 ->
  formatDuration (VNumber (Int sec)) =
  Text.padStart 2 "0" (Text.ofZ (sec / 60)) ++ ":" ++
  Text.padStart 2 "0" (Text.ofZ (sec mod 60)).
Proof.
  intros Hs. unfold formatDuration.
  assert (Hg : negb (truthy (VNumber (Int sec))) || isNaN (VNumber (Int sec))
               || lt (VNumber (Int sec)) 0 = false).
  { cbn. replace (sec =? 0) with false by (symmetry; apply Z.eqb_neq; lia).
    replace (sec <? 0) with false by (symmetry; apply Z.ltb_ge; lia).
    reflexivity. }
  rewrite Hg. cbn [ToNumber].
  rewrite (Z.div_small sec 3600) by lia. cbn [Z.ltb Z.compare].
  rewrite !Z.rem_mod_nonneg by lia.
  rewrite (Z.mod_small sec 3600) by lia.
  reflexivity.
Qed.


(** C1, as stated, fails: 65 seconds print as ["01:05"], with the minutes
    padded, not as ["1:05"]. *)
Lemma formatDuration_claimed_values_fail :
  ~ (formatDuration (VNumber (Int 0)) = "0:00" /\
     formatDuration (VNumber (Int 65)) = "1:05" /\
     formatDuration (VNumber (Int 3661)) = "1:01:01" /\
     formatDuration (VNumber (Int (-5))) = "Unknown" /\
     formatDuration (VNumber NaN) = "Unknown").
Proof.
  intros (_ & H65 & _). vm_compute in H65. discriminate H65.
Qed.

(** C1 (amended): [formatDuration] returns ["01:05"] when applied to 65,
    ["1:01:01"] when applied to 3661, and ["Unknown"] when applied to -5 or
    to NaN. *)
Theorem formatDuration_examples :
  formatDuration (VNumber (Int 65)) = "01:05" /\
  formatDuration (VNumber (Int 3661)) = "1:01:01" /\
  formatDuration (VNumber (Int (-5))) = "Unknown" /\
  formatDuration (VNumber NaN) = "Unknown".
Proof.
  repeat split; reflexivity.
Qed.

(** ** Metadata providers *)

Lemma truthy_not_nullish (v : value) : truthy v = true -> nullish v = false.
Proof. destruct v; simpl; congruence. Qed.

Lemma get_defined (v : value) (key : string) :
  nullish v = false -> get v key = Ok (getOpt v key).
Proof. intros H. unfold get. rewrite H. reflexivity. Qed.

Lemma getOpt_defined (v : value) (key : string) :
  getOpt v key <> VUndefined -> nullish v = false.
Proof. destruct v; simpl; congruence. Qed.

(** C2, as stated, fails: the Facebook provider lists three options, not
    four. *)
Lemma facebook_options_not_four :
  exists m,
    getFacebookMetadata sampleWorld "https://www.facebook.com/watch/123" = Ok m /\
    List.length (options m) = 3%nat /\
    List.length (options m) <> 4%nat.
Proof.
  eexists. split; [reflexivity |]. split; [reflexivity | discriminate].
Qed.

(** C2 (amended): on an oEmbed response that is not null and has no truthy
    [error] field, the Facebook provider returns a record whose options are
    exactly the three hardcoded ones, with ids best, sd and audio, none of
    which carries a [url] field. *)
Theorem facebook_success_options (w : World) (address : string) (data : value) :
  axios_get w (NOEMBED_API_URL ++ "?url=" ++ encodeURIComponent address) = Ok data ->
  nullish data = false ->
  truthy (getOpt data "error") = false ->
  exists m,
    getFacebookMetadata w address = Ok m /\
    options m =
      [ external "best" "Best Quality (External)" "mp4" "best";
        external "sd" "Standard Quality (External)" "mp4" "480p";
        external "audio" "Audio Only (External)" "mp3" "audio" ] /\
    List.map id (options m) = ["best"; "sd"; "audio"] /\
    Forall (fun opt => url opt = None) (options m).
Proof.
  intros Hget Hdata Herr.
  unfold getFacebookMetadata. rewrite Hget. cbn [bind].
  rewrite (get_defined _ _ Hdata). cbn [bind]. rewrite Herr.
  eexists. split; [reflexivity |].
  cbn [options]. split; [reflexivity |]. split; [reflexivity |].
  repeat constructor.
Qed.

Lemma facebook_success_options_witness :
  exists m,
    getFacebookMetadata sampleWorld "https://www.facebook.com/watch/123" = Ok m /\
    options m =
      [ external "best" "Best Quality (External)" "mp4" "best";
        external "sd" "Standard Quality (External)" "mp4" "480p";
        external "audio" "Audio Only (External)" "mp3" "audio" ] /\
    List.map id (options m) = ["best"; "sd"; "audio"] /\
    Forall (fun opt => url opt = None) (options m).
Proof.
  apply (facebook_success_options sampleWorld "https://www.facebook.com/watch/123"
           (VObject [("title", VString "A clip")])); reflexivity.
Defined.

Lemma youtube_options_nonempty (w : World) (address : string) (m : VideoMetadata) :
  getYouTubeMetadata w address = Ok m -> List.length (options m) = 4%nat.
Proof.
  unfold getYouTubeMetadata, bind. intros H. crack H.
  injection H as <-. reflexivity.
Qed.

Lemma facebook_options_nonempty (w : World) (address : string) (m : VideoMetadata) :
  getFacebookMetadata w address = Ok m -> List.length (options m) = 3%nat.
Proof.
  unfold getFacebookMetadata, bind. intros H. crack H.
  all: injection H as <-; reflexivity.
Qed.

Lemma tiktok_options_nonempty (w : World) (address : string) (m : VideoMetadata) :
  getTikTokMetadata w address = Ok m -> options m <> [].
Proof.
  unfold getTikTokMetadata, bind. intros H. crack H.
  all: injection H as <-; cbn in *; congruence.
Qed.

(** With no truthy [play] and no truthy [wmplay] in the payload the TikTok
    provider throws, whatever else the resolver answered. *)
Lemma tiktok_no_link_throws (w : World) (address : string) (responseData : value) :
  axios_post w TIKTOK_API_URL (VObject [("url", VString address)]) = Ok responseData ->
  truthy (getOpt (getOpt responseData "data") "play") = false ->
  truthy (getOpt (getOpt responseData "data") "wmplay") = false ->
  exists e, getTikTokMetadata w address = Throw e.
Proof.
  intros Hpost Hplay Hwm.
  unfold getTikTokMetadata. rewrite Hpost. cbn [bind].
  unfold get at 1. destruct (nullish responseData) eqn:Hn; cbn [bind].
  { eexists; reflexivity. }
  rewrite (get_defined _ _ Hn). cbn [bind].
  destruct (negb (strictEq (getOpt responseData "code") (VNumber (Int 0)))
            || negb (truthy (getOpt responseData "data"))) eqn:Hc.
  { rewrite (get_defined _ _ Hn). cbn [bind]. eexists; reflexivity. }
  apply orb_false_elim in Hc as [_ Hp]. apply negb_false_iff in Hp.
  rewrite !(get_defined _ _ (truthy_not_nullish _ Hp)). cbn [bind].
  rewrite Hplay, Hwm. cbn. eexists; reflexivity.
Qed.

(** C8: every record a provider returns has at least one option, and the
    TikTok provider, the only one whose list is built from the upstream
    answer, throws when that answer yields none. *)
Theorem options_never_empty (w : World) (address : string) :
  (forall m,
      getYouTubeMetadata w address = Ok m \/
      getTikTokMetadata w address = Ok m \/
      getFacebookMetadata w address = Ok m ->
      options m <> []) /\
  (forall responseData,
      axios_post w TIKTOK_API_URL (VObject [("url", VString address)]) = Ok responseData ->
      truthy (getOpt (getOpt responseData "data") "play") = false ->
      truthy (getOpt (getOpt responseData "data") "wmplay") = false ->
      exists e, getTikTokMetadata w address = Throw e).
Proof.
  split.
  - intros m [H | [H | H]].
    + apply youtube_options_nonempty in H. intros E. rewrite E in H. discriminate.
    + now apply tiktok_options_nonempty in H.
    + apply facebook_options_nonempty in H. intros E. rewrite E in H. discriminate.
  - intros. eapply tiktok_no_link_throws; eassumption.
Qed.

Lemma options_never_empty_witness :
  (exists m,
      getTikTokMetadata sampleWorld "https://vm.tiktok.com/xyz" = Ok m /\
      options m <> []) /\
  (exists e, getTikTokMetadata barrenWorld "https://vm.tiktok.com/xyz" = Throw e).
Proof.
  split.
  - eexists. split; [reflexivity |].
    apply (proj1 (options_never_empty sampleWorld "https://vm.tiktok.com/xyz") _
             (or_intror (or_introl eq_refl))).
  - apply (proj2 (options_never_empty barrenWorld "https://vm.tiktok.com/xyz")
             (VObject [("code", VNumber (Int 0));
                       ("data", VObject [("id", VString "7301");
                                         ("title", VString "Slides")])]));
      reflexivity.
Defined.

(** ** Metadata endpoint *)

Lemma statusCodeFor_rule (msg : string) : statusRule msg (statusCodeFor msg).
Proof.
  unfold statusCodeFor.
  destruct (Text.includes msg "not found") eqn:H1;
    [apply rule_not_found; now left |].
  destruct (Text.includes msg "unavailable") eqn:H2;
    [apply rule_not_found; now right |].
  destruct (Text.includes msg "Invalid") eqn:H3;
    [apply rule_invalid; auto |].
  destruct (Text.includes msg "Unsupported") eqn:H4;
    [apply rule_invalid; auto |].
  destruct (Text.includes msg "timeout") eqn:H5;
    [apply rule_timeout; auto | apply rule_other; auto].
Qed.

Lemma statusRule_functional (msg : string) (a b : Z) :
  statusRule msg a -> statusRule msg b -> a = b.
Proof.
  intros Ha Hb.
  destruct Ha as [[?|?] | ? ? [?|?] | |]; destruct Hb as [[?|?] | ? ? [?|?] | |];
    congruence.
Qed.

Lemma isValidUrl_nonempty (s : string) : isValidUrl s = true -> s <> "".
Proof. intros H E. subst s. discriminate H. Qed.

(** The provider each platform is served by. *)
Lemma fetchMetadata_dispatch (w : World) (rawUrl : string) :
  fetchMetadata w "YouTube" rawUrl = getYouTubeMetadata w (cleanYouTubeUrl rawUrl) /\
  fetchMetadata w "TikTok" rawUrl = getTikTokMetadata w rawUrl /\
  fetchMetadata w "Facebook" rawUrl = getFacebookMetadata w rawUrl.
Proof. repeat split; reflexivity. Qed.

(** What the metadata endpoint does once the request passed validation. *)
Lemma metadataHandler_validated (w : World) (req : Request) (rawUrl platform : string) :
  trimmed (lookup "url" (query req)) = Ok (Some rawUrl) ->
  isValidUrl rawUrl = true ->
  extractPlatform rawUrl = Some platform ->
  metadataHandler w req =
  match fetchMetadata w platform rawUrl with
  | Ok metadata => Json 200 (Data metadata)
  | Throw error => Json (statusCodeFor (message error)) (Failure (message error))
  end.
Proof.
  intros Hurl Hvalid Hplat. unfold metadataHandler. rewrite Hurl.
  pose proof (isValidUrl_nonempty _ Hvalid) as Hne.
  destruct rawUrl as [| c r]; [congruence |].
  rewrite Hvalid, Hplat. reflexivity.
Qed.

(** C6: when the provider called by the metadata endpoint throws, the
    answer is [{success:false, error:<message>}] and its status follows
    the substring rule, first match first: "not found" or "unavailable"
    give 404, else "Invalid" or "Unsupported" give 400, else "timeout"
    gives 504, else 500. *)
Theorem metadata_error_status
  (w : World) (req : Request) (rawUrl platform : string) (e : error) :
  trimmed (lookup "url" (query req)) = Ok (Some rawUrl) ->
  isValidUrl rawUrl = true ->
  extractPlatform rawUrl = Some platform ->
  fetchMetadata w platform rawUrl = Throw e ->
  exists status,
    metadataHandler w req = Json status (Failure (message e)) /\
    statusRule (message e) status /\
    (forall other, statusRule (message e) other -> other = status).
Proof.
  intros Hurl Hvalid Hplat Hthrow.
  exists (statusCodeFor (message e)). split; [| split].
  - rewrite (metadataHandler_validated w req rawUrl platform Hurl Hvalid Hplat).
    rewrite Hthrow. reflexivity.
  - apply statusCodeFor_rule.
  - intros other Hother.
    exact (statusRule_functional _ _ _ Hother (statusCodeFor_rule _)).
Qed.

Lemma metadata_error_status_witness :
  exists status,
    metadataHandler goneWorld tiktokRequest =
      Json status (Failure "TikTok: TikTok API Error: Video not found") /\
    statusRule "TikTok: TikTok API Error: Video not found" status /\
    (forall other,
        statusRule "TikTok: TikTok API Error: Video not found" other -> other = status).
Proof.
  apply (metadata_error_status goneWorld tiktokRequest "https://vm.tiktok.com/xyz"
           "TikTok" (Error "TikTok: TikTok API Error: Video not found"));
    reflexivity.
Defined.

(** C7: when the resolver answers with code 0 and a payload that has
    neither a [play] nor a [wmplay] field, the TikTok provider throws, and
    the metadata endpoint answers 500: the message matches none of the
    substrings that give 404, 400 or 504. *)
Theorem tiktok_without_links
  (w : World) (address : string) (responseData payload : value) :
  axios_post w TIKTOK_API_URL (VObject [("url", VString address)]) = Ok responseData ->
  getOpt responseData "code" = VNumber (Int 0) ->
  getOpt responseData "data" = payload ->
  truthy payload = true ->
  getOpt payload "play" = VUndefined ->
  getOpt payload "wmplay" = VUndefined ->
  getTikTokMetadata w address = Throw (Error noFormats) /\
  statusCodeFor noFormats = 500 /\
  (forall req,
      trimmed (lookup "url" (query req)) = Ok (Some address) ->
      isValidUrl address = true ->
      extractPlatform address = Some "TikTok" ->
      metadataHandler w req = Json 500 (Failure noFormats)).
Proof.
  intros Hpost Hcode Hdata Htruthy Hplay Hwm.
  assert (Hn : nullish responseData = false).
  { apply (getOpt_defined _ "code"). rewrite Hcode. discriminate. }
  assert (Hthrow : getTikTokMetadata w address = Throw (Error noFormats)).
  { unfold getTikTokMetadata. rewrite Hpost. cbn [bind].
    rewrite !(get_defined _ _ Hn). cbn [bind].
    rewrite Hcode, Hdata, Htruthy. cbn [strictEq Z.eqb negb orb].
    rewrite !(get_defined _ _ (truthy_not_nullish _ Htruthy)). cbn [bind].
    rewrite Hplay, Hwm. reflexivity. }
  split; [exact Hthrow |]. split; [reflexivity |].
  intros req Hurl Hvalid Hplat.
  rewrite (metadataHandler_validated w req address "TikTok" Hurl Hvalid Hplat).
  cbn [fetchMetadata String.eqb Ascii.eqb Bool.eqb]. 
  change (fetchMetadata w "TikTok" address) with (getTikTokMetadata w address).
  rewrite Hthrow. reflexivity.
Qed.

Lemma tiktok_without_links_witness :
  getTikTokMetadata barrenWorld "https://vm.tiktok.com/xyz" = Throw (Error noFormats) /\
  statusCodeFor noFormats = 500 /\
  (forall req,
      trimmed (lookup "url" (query req)) = Ok (Some "https://vm.tiktok.com/xyz") ->
      isValidUrl "https://vm.tiktok.com/xyz" = true ->
      extractPlatform "https://vm.tiktok.com/xyz" = Some "TikTok" ->
      metadataHandler barrenWorld req = Json 500 (Failure noFormats)).
Proof.
  apply (tiktok_without_links barrenWorld "https://vm.tiktok.com/xyz"
           (VObject [("code", VNumber (Int 0));
                     ("data", VObject [("id", VString "7301");
                                       ("title", VString "Slides")])])
           (VObject [("id", VString "7301"); ("title", VString "Slides")]));
    reflexivity.
Defined.

(** ** Download endpoint *)

(** When the [url] parameter is absent or a single string, a request with
    a wrong key is answered 401 before any validation of the URL. *)
Lemma download_key_first (API_KEY : string) (w : World) (req : Request) :
  (lookup "url" (query req) = VUndefined \/
   exists s, lookup "url" (query req) = VString s) ->
  keyRejected API_KEY req = true ->
  downloadHandler API_KEY w req = Json 401 (Failure "Invalid API key.").
Proof.
  intros Hurl Hkey. unfold downloadHandler, caught, downloadAttempt.
  unfold keyRejected in Hkey.
  destruct Hurl as [Hu | [s Hu]]; rewrite Hu; cbn [trimmed bind];
    rewrite Hkey; reflexivity.
Qed.

(** C10 at the failing input: with the key "secret" configured, a request
    that repeats [url] and carries a wrong key is answered 500, not 401:
    [req.query.url?.trim()] runs before the key check and throws on an
    array. *)
Theorem download_repeated_url_wrong_key (w : World) :
  keyRejected "secret" repeatedUrlRequest = true /\
  downloadHandler "secret" w repeatedUrlRequest =
  Json 500 (Failure "Download failed: req.query.url?.trim is not a function").
Proof.
  split; reflexivity.
Qed.

Lemma find_firstWith {A : Type} (p : A -> bool) (P : A -> Prop) (l : list A) :
  (forall x, p x = true <-> P x) ->
  match List.find p l with
  | Some x => firstWith P l x
  | None => Forall (fun x => ~ P x) l
  end.
Proof.
  intros Hp. induction l as [| y l IH]; simpl.
  - constructor.
  - destruct (p y) eqn:Hy.
    + apply first_here. now apply Hp.
    + assert (Hn : ~ P y) by (intros HP; apply Hp in HP; congruence).
      destruct (List.find p l).
      * now apply first_later.
      * now constructor.
Qed.

Lemma strictEq_string (s : string) (v : value) :
  strictEq (VString s) v = true <-> v = VString s.
Proof.
  destruct v; simpl; try (split; [discriminate | congruence]).
  rewrite String.eqb_eq. split; congruence.
Qed.

Lemma find_other_type (options : list DownloadOption) (format : value) :
  (forall f, format <> VString f) ->
  List.find (fun opt => strictEq (VString (id opt)) format) options = None.
Proof.
  intros Hf. induction options as [| o l IH]; [reflexivity |].
  simpl. destruct format; try exact IH.
  now contradiction (Hf s).
Qed.

Lemma find_by_format (options : list DownloadOption) (format : value) :
  match List.find (fun opt => strictEq (VString (id opt)) format) options with
  | Some x => exists f, format = VString f /\ firstWith (fun y => id y = f) options x
  | None => forall f, format = VString f -> Forall (fun y => id y <> f) options
  end.
Proof.
  destruct format as [| | b | n | f | items | fields].
  5: {
    pose proof (find_firstWith (fun opt => strictEq (VString (id opt)) (VString f))
                  (fun x => id x = f) options) as Hf.
    assert (Hiff : forall x, strictEq (VString (id x)) (VString f) = true <-> id x = f).
    { intros x. simpl. apply String.eqb_eq. }
    specialize (Hf Hiff).
    destruct (List.find (fun opt => strictEq (VString (id opt)) (VString f)) options).
    - now exists f.
    - intros g Hg. injection Hg as <-. exact Hf. }
  all: rewrite find_other_type by discriminate; discriminate.
Qed.

Lemma selectOption_chosen (options : list DownloadOption) (format : value) :
  chosen options format (selectOption options format).
Proof.
  unfold selectOption, orElse.
  pose proof (find_firstWith (fun opt => (id opt =? "nowm")%string)
                (fun x => id x = "nowm") options
                (fun x => String.eqb_eq (id x) "nowm")) as Hnowm.
  pose proof (find_by_format options format) as Hformat.
  destruct (List.find (fun opt => strictEq (VString (id opt)) format) options).
  - destruct Hformat as (f & Hf & Hfirst). now apply (chosen_by_format _ _ f).
  - destruct (List.find (fun opt => (id opt =? "nowm")%string) options).
    + now apply chosen_no_watermark.
    + now apply chosen_first.
Qed.

(** The relation pins the choice down. *)
Lemma firstWith_functional {A : Type} (P : A -> Prop) (l : list A) (x y : A) :
  firstWith P l x -> firstWith P l y -> x = y.
Proof.
  intros Hx. revert y. induction Hx; intros z Hz; inversion Hz; subst;
    try reflexivity; try contradiction; auto.
Qed.

Lemma firstWith_not_all {A : Type} (P : A -> Prop) (l : list A) (x : A) :
  firstWith P l x -> Forall (fun y => ~ P y) l -> False.
Proof.
  intros Hx Hall. induction Hx; inversion Hall; subst; auto.
Qed.

Lemma chosen_functional (options : list DownloadOption) (format : value)
      (a b : option DownloadOption) :
  chosen options format a -> chosen options format b -> a = b.
Proof.
  intros Ha Hb.
  destruct Ha as [f x Hf Hx | x Hno Hx | Hno Hnw];
    destruct Hb as [g y Hg Hy | y Hno' Hy | Hno' Hnw'].
  - subst format. injection Hg as <-. f_equal. eapply firstWith_functional; eauto.
  - exfalso. eapply firstWith_not_all; [exact Hx | exact (Hno' f Hf)].
  - exfalso. eapply firstWith_not_all; [exact Hx | exact (Hno' f Hf)].
  - exfalso. eapply firstWith_not_all; [exact Hy | exact (Hno g Hg)].
  - f_equal. eapply firstWith_functional; eauto.
  - exfalso. eapply firstWith_not_all; [exact Hx | exact Hnw'].
  - exfalso. eapply firstWith_not_all; [exact Hy | exact (Hno g Hg)].
  - exfalso. eapply firstWith_not_all; [exact Hy | exact Hnw].
  - reflexivity.
Qed.

(** The download endpoint on a TikTok URL that passed the key check and
    the validation. *)
Lemma downloadHandler_tiktok
  (API_KEY : string) (w : World) (req : Request) (address : string)
  (metadata : VideoMetadata) :
  trimmed (lookup "url" (query req)) = Ok (Some address) ->
  keyRejected API_KEY req = false ->
  isValidUrl address = true ->
  extractPlatform address = Some "TikTok" ->
  getTikTokMetadata w address = Ok metadata ->
  downloadHandler API_KEY w req =
  caught (tiktokDownload w metadata (lookup "format" (query req))).
Proof.
  intros Hurl Hkey Hvalid Hplat Hmeta.
  unfold downloadHandler, downloadAttempt. rewrite Hurl. cbn [bind].
  unfold keyRejected in Hkey. rewrite Hkey.
  pose proof (isValidUrl_nonempty _ Hvalid) as Hne.
  destruct address as [| c r]; [congruence |].
  rewrite Hvalid, Hplat. cbn [negb].
  change ("TikTok" =? "YouTube")%string with false.
  change ("TikTok" =? "Facebook")%string with false.
  change ("TikTok" =? "TikTok")%string with true.
  cbv iota. rewrite Hmeta. reflexivity.
Qed.

(** C5: the TikTok download serves the option whose id is the requested
    format, else the option with id "nowm", else the first option of the
    metadata; when there is no such option or the selected one has no
    usable [url], the endpoint answers 404; otherwise it streams from the
    selected option's [url]. *)
Theorem tiktok_download_selection
  (w : World) (metadata : VideoMetadata) (format : value) :
  chosen (options metadata) format (selectOption (options metadata) format) /\
  (forall other,
      chosen (options metadata) format other ->
      other = selectOption (options metadata) format) /\
  match selectOption (options metadata) format with
  | None => caught (tiktokDownload w metadata format) = Json 404 (Failure noUrlFound)
  | Some selected =>
      if lacksUrl selected
      then caught (tiktokDownload w metadata format) = Json 404 (Failure noUrlFound)
      else
        forall source t,
          url selected = Some source ->
          axios_stream w source = Ok tt ->
          title metadata = VString t ->
          exists headers,
            caught (tiktokDownload w metadata format) = Pipe headers source
  end /\
  (forall API_KEY req address,
      trimmed (lookup "url" (query req)) = Ok (Some address) ->
      keyRejected API_KEY req = false ->
      isValidUrl address = true ->
      extractPlatform address = Some "TikTok" ->
      getTikTokMetadata w address = Ok metadata ->
      lookup "format" (query req) = format ->
      downloadHandler API_KEY w req = caught (tiktokDownload w metadata format)).
Proof.
  split; [apply selectOption_chosen |].
  split.
  { intros other Hother.
    exact (chosen_functional _ _ _ _ Hother (selectOption_chosen _ _)). }
  split.
  - unfold tiktokDownload.
    destruct (selectOption (options metadata) format) as [selected |];
      [| reflexivity].
    destruct (lacksUrl selected) eqn:Hlack; [reflexivity |].
    intros source t Hsource Hstream Htitle.
    rewrite Hsource, Hstream, Htitle. cbn [bind caught].
    eexists. reflexivity.
  - intros API_KEY req address Hurl Hkey Hvalid Hplat Hmeta <-.
    now apply downloadHandler_tiktok with (address := address).
Qed.

Lemma tiktok_download_selection_witness :
  caught (tiktokDownload sampleWorld linklessMetadata (VString "hd")) =
    Json 404 (Failure noUrlFound) /\
  downloadHandler "" sampleWorld
    (mkRequest [("url", VString "https://vm.tiktok.com/xyz"); ("format", VString "hd")]) =
  caught (tiktokDownload sampleWorld
            {| video_id := VString "tiktok-1700000000000";
               title := VString "My Vid!";
               uploader := VString "TikTok User";
               duration := "Unknown";
               thumbnail := VNull;
               description := VString "My Vid!";
               viewCount := VUndefined;
               uploadDate := None;
               options := [mkOption "wm" (Some "wm") "Standard (With Watermark)" "mp4"
                             "standard" (Some (VString "https://cdn.example/x.mp4")) None];
               platform := "TikTok" |}
            (VString "hd")).
Proof.
  split.
  - exact (proj1 (proj2 (proj2
            (tiktok_download_selection sampleWorld linklessMetadata (VString "hd"))))).
  - apply (proj2 (proj2 (proj2
            (tiktok_download_selection sampleWorld _ (VString "hd"))))
             "" _ "https://vm.tiktok.com/xyz"); reflexivity.
Defined.

(** The request of the witness above ends in a stream of the watermarked
    link, the first option, as neither "hd" nor "nowm" is on offer. *)
Lemma tiktok_download_falls_back :
  downloadHandler "" sampleWorld
    (mkRequest [("url", VString "https://vm.tiktok.com/xyz"); ("format", VString "hd")]) =
  Pipe [("Content-Disposition", "attachment; filename=" ++ quote ++ "my_vid_.mp4" ++ quote);
        ("Content-Type", "video/mp4")]
       (VString "https://cdn.example/x.mp4").
Proof. reflexivity. Qed.

(** ** URL classifier *)

Lemma firstPlatform_first (hostname : string) (entries : list (string * list string)) :
  match firstPlatform hostname entries with
  | Some platform =>
      exists domains, firstWith (matchesEntry hostname) entries (platform, domains)
  | None => Forall (fun entry => ~ matchesEntry hostname entry) entries
  end.
Proof.
  induction entries as [| [platform domains] rest IH]; simpl.
  - constructor.
  - destruct (existsb (fun domain => Text.includes hostname domain) domains) eqn:Hex.
    + exists domains. apply first_here. apply existsb_exists in Hex. exact Hex.
    + assert (Hno : ~ matchesEntry hostname (platform, domains)).
      { intros Hm.
        assert (Hyes : existsb (fun domain => Text.includes hostname domain) domains = true)
          by (apply existsb_exists; exact Hm).
        congruence. }
      destruct (firstPlatform hostname rest) as [p |].
      * destruct IH as [ds Hfirst]. exists ds. now apply first_later.
      * now constructor.
Qed.

(** C9: on a valid URL, [extractPlatform] lower-cases the host name and
    returns the first platform of the table, in the order YouTube, TikTok,
    Facebook, that has a domain occurring in the host name, and null when
    there is none; it returns "TikTok" for https://vm.tiktok.com/xyz and
    null for https://example.com. *)
Theorem extractPlatform_first_match (address : string) :
  isValidUrl address = true ->
  (exists u,
      Url.parse address = Some u /\
      match extractPlatform address with
      | Some platform =>
          exists domains,
            firstWith (matchesEntry (Text.toLowerCase (Url.hostname u)))
                      PLATFORM_DOMAINS (platform, domains)
      | None =>
          Forall (fun entry => ~ matchesEntry (Text.toLowerCase (Url.hostname u)) entry)
                 PLATFORM_DOMAINS
      end) /\
  List.map fst PLATFORM_DOMAINS = ["YouTube"; "TikTok"; "Facebook"] /\
  extractPlatform "https://vm.tiktok.com/xyz" = Some "TikTok" /\
  extractPlatform "https://example.com" = None.
Proof.
  intros Hvalid. split; [| repeat split; reflexivity].
  unfold isValidUrl in Hvalid. unfold extractPlatform.
  destruct (Url.parse address) as [u |]; [| discriminate].
  exists u. split; [reflexivity |].
  apply firstPlatform_first.
Qed.

Lemma extractPlatform_first_match_witness :
  (exists u,
      Url.parse "https://vm.tiktok.com/xyz" = Some u /\
      match extractPlatform "https://vm.tiktok.com/xyz" with
      | Some platform =>
          exists domains,
            firstWith (matchesEntry (Text.toLowerCase (Url.hostname u)))
                      PLATFORM_DOMAINS (platform, domains)
      | None =>
          Forall (fun entry => ~ matchesEntry (Text.toLowerCase (Url.hostname u)) entry)
                 PLATFORM_DOMAINS
      end) /\
  List.map fst PLATFORM_DOMAINS = ["YouTube"; "TikTok"; "Facebook"] /\
  extractPlatform "https://vm.tiktok.com/xyz" = Some "TikTok" /\
  extractPlatform "https://example.com" = None.
Proof.
  apply (extractPlatform_first_match "https://vm.tiktok.com/xyz"). reflexivity.
Defined.

(** The host name is matched by substring, so a foreign host that embeds
    a listed domain is classified with it. *)
Lemma extractPlatform_substring :
  extractPlatform "https://notyoutube.com.example.org/" = Some "YouTube".
Proof. reflexivity. Qed.

(** *** The scheme decides validity *)

Lemma lowerChar_colon (c : ascii) : Ascii.eqb c ":" = true -> Text.lowerChar c = ":"%char.
Proof. intros H. apply Ascii.eqb_eq in H. subst c. reflexivity. Qed.

Lemma schemeState_prefix (s scheme rest : string) :
  Url.schemeState s = Some (scheme, rest) ->
  Text.toLowerCase s = (scheme ++ ":") ++ Text.toLowerCase rest.
Proof.
  revert scheme. induction s as [| c r IH]; intros scheme H; simpl in H.
  - discriminate.
  - destruct (Ascii.eqb c ":") eqn:Hc.
    + injection H as <- <-. unfold Text.toLowerCase. cbn [Text.map String.append].
      now rewrite (lowerChar_colon c Hc).
    + destruct (Url.isSchemeChar c); [| discriminate].
      destruct (Url.schemeState r) as [[a b] |]; [| discriminate].
      injection H as <- <-. unfold Text.toLowerCase. cbn [Text.map String.append].
      f_equal. now apply IH.
Qed.

Lemma schemeStart_prefix (s scheme rest : string) :
  Url.schemeStart s = Some (scheme, rest) ->
  Text.toLowerCase s = (scheme ++ ":") ++ Text.toLowerCase rest.
Proof.
  unfold Url.schemeStart. destruct s as [| c r]; [discriminate |].
  destruct (Text.isAlpha c); [| discriminate].
  apply schemeState_prefix.
Qed.

Lemma authorityState_scheme (scheme : string) (special : bool) (input : string) (u : Url.t) :
  Url.authorityState scheme special input = Some u -> Url.scheme u = scheme.
Proof.
  unfold Url.authorityState. intros H. crack H.
  all: injection H as <-; reflexivity.
Qed.

Lemma fileState_scheme (input : string) (u : Url.t) :
  Url.fileState input = Some u -> Url.scheme u = "file".
Proof.
  unfold Url.fileState. intros H. crack H.
  all: injection H as <-; reflexivity.
Qed.

(** The scheme of a parsed URL is the one the scheme state read. *)
Lemma parse_scheme (s : string) (u : Url.t) :
  Url.parse s = Some u ->
  exists rest, Url.schemeStart (Url.clean s) = Some (Url.scheme u, rest).
Proof.
  unfold Url.parse. intros H.
  destruct (Url.schemeStart (Url.clean s)) as [[scheme rest] |]; [| discriminate].
  exists rest. f_equal. f_equal.
  destruct (scheme =? "file")%string eqn:Hfile.
  - apply String.eqb_eq in Hfile. subst scheme. symmetry. now apply fileState_scheme in H.
  - destruct (Url.isSpecial scheme).
    + now apply authorityState_scheme in H.
    + crack H.
      all: try (injection H as <-; reflexivity).
      now apply authorityState_scheme in H.
Qed.

(** C3, as stated, fails: the scheme is read without regard to letter
    case, so this URL, which begins with neither prefix, is valid. *)
Lemma isValidUrl_upper_case_scheme :
  Text.startsWith "http://" "HTTP://example.com" = false /\
  Text.startsWith "https://" "HTTP://example.com" = false /\
  isValidUrl "HTTP://example.com" = true.
Proof. repeat split; reflexivity. Qed.

(** The slashes after the scheme are optional, and white space around the
    URL as well as tabs and newlines inside it are dropped. *)
Lemma isValidUrl_lenient :
  isValidUrl "http:example.com" = true /\
  isValidUrl " https://example.com" = true /\
  isValidUrl (String (ascii_of_nat 9) "http://example.com") = true /\
  isValidUrl ("ht" ++ String (ascii_of_nat 10) "tp://example.com") = true.
Proof. repeat split; reflexivity. Qed.

(** C3 (amended): a string that, once the control characters and spaces
    around it are stripped and its tabs and newlines removed, does not
    begin with "http:" or "https:" in any letter case is not a valid
    URL. *)
Theorem isValidUrl_needs_http_scheme (s : string) :
  Text.startsWith "http:" (Text.toLowerCase (Url.clean s)) = false ->
  Text.startsWith "https:" (Text.toLowerCase (Url.clean s)) = false ->
  isValidUrl s = false.
Proof.
  intros Hhttp Hhttps.
  destruct (isValidUrl s) eqn:Hvalid; [exfalso | reflexivity].
  unfold isValidUrl in Hvalid.
  destruct (Url.parse s) as [u |] eqn:Hparse; [| discriminate].
  destruct (parse_scheme s u Hparse) as [rest Hstart].
  apply schemeStart_prefix in Hstart.
  unfold Url.protocol in Hvalid.
  apply orb_true_iff in Hvalid as [H | H]; apply String.eqb_eq in H;
    rewrite H in Hstart; rewrite Hstart in *; simpl in *; discriminate.
Qed.

Lemma isValidUrl_needs_http_scheme_witness :
  isValidUrl "ftp://example.com/video.mp4" = false.
Proof.
  apply (isValidUrl_needs_http_scheme "ftp://example.com/video.mp4"); reflexivity.
Defined.

(** ** YouTube normalizer *)

Lemma printable_not_space : rejects isPrintable Url.isC0OrSpace.
Proof. unfold rejects. by_enumeration. Qed.
Lemma printable_not_tab : rejects isPrintable Url.isTabOrNewline.
Proof. unfold rejects. by_enumeration. Qed.
Lemma id_printable : rejects isIdChar Url.isC0OrSpace.
Proof. unfold rejects. by_enumeration. Qed.
Lemma id_not_slash (special : bool) : rejects isIdChar (Url.isSlash special).
Proof. unfold rejects. destruct special; by_enumeration. Qed.
Lemma id_not_query_start : rejects isIdChar Url.isQueryOrFragmentStart.
Proof. unfold rejects. by_enumeration. Qed.
Lemma id_not_pathSet : rejects isIdChar Url.pathSet.
Proof. unfold rejects. by_enumeration. Qed.
Lemma id_not_specialQuerySet : rejects isIdChar Url.specialQuerySet.
Proof. unfold rejects. by_enumeration. Qed.
Lemma id_not_urlencodedSet : rejects isIdChar Url.urlencodedSet.
Proof. unfold rejects. by_enumeration. Qed.
Lemma id_not_char (d : ascii) : isIdChar d = false -> rejects isIdChar (Ascii.eqb d).
Proof.
  intros Hd c Hc. destruct (Ascii.eqb d c) eqn:E; [| reflexivity].
  apply Ascii.eqb_eq in E. congruence.
Qed.

Section PlainText.

Variables q p : ascii -> bool.
Hypothesis q_rejects_p : rejects q p.

Variable s : string.
Hypothesis s_plain : Text.all q s = true.

Lemma plain_filter : Text.filter (fun c => negb (p c)) s = s.
Proof.
  induction s as [| c r IH]; [reflexivity |].
  simpl in s_plain. apply andb_true_iff in s_plain as [Hc Hr].
  simpl. rewrite (q_rejects_p c Hc). simpl. f_equal. now apply IH.
Qed.

Lemma plain_span : Text.span p s = (s, "").
Proof.
  induction s as [| c r IH]; [reflexivity |].
  simpl in s_plain. apply andb_true_iff in s_plain as [Hc Hr].
  simpl. rewrite (q_rejects_p c Hc). now rewrite (IH Hr).
Qed.

Lemma plain_splitBy : Text.splitBy p s = [s].
Proof.
  induction s as [| c r IH]; [reflexivity |].
  simpl in s_plain. apply andb_true_iff in s_plain as [Hc Hr].
  simpl. rewrite (q_rejects_p c Hc). now rewrite (IH Hr).
Qed.

Lemma plain_percentEncode : Text.percentEncode p s = s.
Proof.
  induction s as [| c r IH]; [reflexivity |].
  simpl in s_plain. apply andb_true_iff in s_plain as [Hc Hr].
  simpl. rewrite (q_rejects_p c Hc). f_equal. now apply IH.
Qed.

Lemma plain_dropWhile : Text.dropWhile p s = s.
Proof.
  destruct s as [| c r]; [reflexivity |].
  simpl in s_plain. apply andb_true_iff in s_plain as [Hc Hr].
  simpl. now rewrite (q_rejects_p c Hc).
Qed.

Lemma plain_dropWhileEnd : Text.dropWhileEnd p s = s.
Proof.
  induction s as [| c r IH]; [reflexivity |].
  simpl in s_plain. apply andb_true_iff in s_plain as [Hc Hr].
  simpl. rewrite (IH Hr). rewrite (q_rejects_p c Hc). now destruct r.
Qed.

End PlainText.

Lemma all_weaken (q q' : ascii -> bool) (s : string) :
  (forall c, q c = true -> q' c = true) -> Text.all q s = true -> Text.all q' s = true.
Proof.
  intros Hq. induction s as [| c r IH]; [reflexivity |].
  simpl. intros H. apply andb_true_iff in H as [Hc Hr].
  now rewrite (Hq c Hc), (IH Hr).
Qed.

Lemma id_is_printable (c : ascii) : isIdChar c = true -> isPrintable c = true.
Proof. intros H. unfold isPrintable. now rewrite (id_printable c H). Qed.

(** A string of printable characters passes the input cleaning unchanged. *)
Lemma clean_printable (s : string) :
  Text.all isPrintable s = true -> Url.clean s = s.
Proof.
  intros H. unfold Url.clean.
  rewrite (plain_dropWhile _ _ printable_not_space s H).
  rewrite (plain_dropWhileEnd _ _ printable_not_space s H).
  apply (plain_filter _ _ printable_not_tab s H).
Qed.

Lemma videoId_chars (ID : string) : isVideoId ID = true -> Text.all isIdChar ID = true.
Proof. unfold isVideoId. intros H. now apply andb_true_iff in H as [_ H]. Qed.

Lemma videoId_length (ID : string) :
  isVideoId ID = true ->
  ((10 <=? String.length ID)%nat && (String.length ID <=? 11)%nat) = true.
Proof. unfold isVideoId. intros H. now apply andb_true_iff in H as [H _]. Qed.

Lemma videoId_not_dots (ID : string) :
  isVideoId ID = true -> Url.isSingleDot ID = false /\ Url.isDoubleDot ID = false.
Proof.
  intros Hid. pose proof (videoId_length ID Hid) as Hlen.
  do 7 (destruct ID as [| ? ID]; [discriminate Hlen |]).
  unfold Url.isSingleDot, Url.isDoubleDot, Text.toLowerCase.
  cbn [Text.map String.eqb].
  repeat match goal with
         | |- context [if ?b then _ else _] => destruct b
         end.
  all: split; reflexivity.
Qed.

Lemma pathState_plain (acc : list string) (seg : string) :
  Url.isSingleDot seg = false ->
  Url.isDoubleDot seg = false ->
  Url.pathState false acc [seg] = (acc ++ [seg])%list.
Proof.
  intros Hs Hd. cbn [Url.pathState]. rewrite Hs, Hd. cbn [andb].
  destruct acc; [| reflexivity].
  destruct seg as [| a [| b [| c r]]]; reflexivity.
Qed.

(** The path of a URL that ends in a video identifier. *)
Lemma segmentsOf_videoId (ID : string) :
  isVideoId ID = true -> Url.segmentsOf true false ID = [ID].
Proof.
  intros Hid. pose proof (videoId_chars ID Hid) as Hchars.
  destruct (videoId_not_dots ID Hid) as [Hs Hd].
  unfold Url.segmentsOf.
  rewrite (plain_percentEncode _ _ id_not_pathSet ID Hchars).
  rewrite (plain_splitBy _ _ (id_not_slash true) ID Hchars).
  now rewrite pathState_plain.
Qed.

Lemma printable_suffix (ID : string) :
  isVideoId ID = true -> Text.all isPrintable ID = true.
Proof.
  intros Hid. apply (all_weaken isIdChar); [exact id_is_printable |].
  now apply videoId_chars.
Qed.

Lemma parse_youtu_be (ID : string) :
  isVideoId ID = true ->
  Url.parse ("https://youtu.be/" ++ ID) =
  Some (Url.mk "https" "" "" (Some "youtu.be") None (Url.Segments [ID]) None None).
Proof.
  intros Hid. pose proof (videoId_chars ID Hid) as Hchars.
  unfold Url.parse.
  rewrite clean_printable by (simpl; now apply printable_suffix).
  cbn.
  rewrite (plain_span _ _ id_not_query_start ID Hchars).
  cbn - [Url.segmentsOf]. now rewrite (segmentsOf_videoId ID Hid).
Qed.

Lemma parse_shorts (ID : string) :
  isVideoId ID = true ->
  Url.parse ("https://youtube.com/shorts/" ++ ID) =
  Some (Url.mk "https" "" "" (Some "youtube.com") None
               (Url.Segments ["shorts"; ID]) None None).
Proof.
  intros Hid. pose proof (videoId_chars ID Hid) as Hchars.
  destruct (videoId_not_dots ID Hid) as [Hs Hd].
  unfold Url.parse.
  rewrite clean_printable by (simpl; now apply printable_suffix).
  cbn.
  rewrite (plain_span _ _ id_not_query_start ID Hchars).
  cbn. unfold Url.segmentsOf. cbn.
  rewrite (plain_percentEncode _ _ id_not_pathSet ID Hchars).
  rewrite (plain_splitBy _ _ (id_not_slash true) ID Hchars).
  cbn - [Url.isDoubleDot Url.isSingleDot].
  now rewrite Hd, Hs.
Qed.

Lemma parse_watch (ID : string) :
  isVideoId ID = true ->
  Url.parse ("https://youtube.com/watch?v=" ++ ID) =
  Some (Url.mk "https" "" "" (Some "youtube.com") None
               (Url.Segments ["watch"]) (Some ("v=" ++ ID)) None).
Proof.
  intros Hid. pose proof (videoId_chars ID Hid) as Hchars.
  unfold Url.parse.
  rewrite clean_printable by (simpl; now apply printable_suffix).
  cbn.
  rewrite (plain_span _ _ (id_not_char "#" eq_refl) ID Hchars).
  cbn.
  now rewrite (plain_percentEncode _ _ id_not_specialQuerySet ID Hchars).
Qed.

Lemma plusToSpace_plain (ID : string) :
  Text.all isIdChar ID = true -> Text.map Url.plusToSpace ID = ID.
Proof.
  induction ID as [| c r IH]; [reflexivity |].
  simpl. intros H. apply andb_true_iff in H as [Hc Hr].
  rewrite (IH Hr). unfold Url.plusToSpace.
  assert (Hplus : Ascii.eqb c "+" = false).
  { destruct (Ascii.eqb c "+") eqn:E; [| reflexivity].
    apply Ascii.eqb_eq in E. subst c. discriminate Hc. }
  now rewrite Hplus.
Qed.

Lemma percentDecode_plain (ID : string) :
  Text.all isIdChar ID = true -> Text.percentDecode ID = ID.
Proof.
  assert (Hgen : forall n s, (String.length s <= n)%nat ->
                             Text.all isIdChar s = true -> Text.percentDecode s = s).
  { induction n as [| n IH]; intros s Hlen Hs.
    - destruct s; [reflexivity | simpl in Hlen; lia].
    - destruct s as [| c r]; [reflexivity |].
      simpl in Hs. apply andb_true_iff in Hs as [Hc Hr].
      assert (Hpct : Ascii.eqb c "%" = false).
      { destruct (Ascii.eqb c "%") eqn:E; [| reflexivity].
        apply Ascii.eqb_eq in E. subst c. discriminate Hc. }
      simpl in Hlen.
      cbn [Text.percentDecode]. rewrite Hpct. cbn [andb].
      rewrite (IH r) by (lia || exact Hr).
      now destruct r as [| x [| y r']]. }
  intros H. now apply (Hgen (String.length ID)).
Qed.

Lemma formEncode_plain (ID : string) :
  Text.all isIdChar ID = true -> Url.formEncode ID = ID.
Proof.
  induction ID as [| c r IH]; [reflexivity |].
  simpl. intros H. apply andb_true_iff in H as [Hc Hr].
  assert (Hsp : Ascii.eqb c " " = false).
  { destruct (Ascii.eqb c " ") eqn:E; [| reflexivity].
    apply Ascii.eqb_eq in E. subst c. discriminate Hc. }
  now rewrite Hsp, (id_not_urlencodedSet c Hc), (IH Hr).
Qed.

Lemma append_empty (s : string) : s ++ "" = s.
Proof. induction s as [| c r IH]; [reflexivity | simpl; now rewrite IH]. Qed.

Lemma videoId_present (ID : string) : isVideoId ID = true -> absent (Some ID) = false.
Proof.
  intros Hid. pose proof (videoId_length ID Hid) as Hlen.
  destruct ID; [discriminate Hlen | reflexivity].
Qed.

(** The canonical URL [cleanYouTubeUrl] builds from an identifier. *)
Lemma canonical_href (ID : string) :
  isVideoId ID = true ->
  match Url.parse "https://www.youtube.com/watch" with
  | Some cleanUrl => Url.href (Url.searchParamsSet cleanUrl "v" ID)
  | None => ""
  end = "https://www.youtube.com/watch?v=" ++ ID.
Proof.
  intros Hid. pose proof (videoId_chars ID Hid) as Hchars.
  cbn. rewrite (formEncode_plain ID Hchars). cbn.
  now rewrite append_empty.
Qed.

Lemma searchParams_watch (ID : string) :
  Text.all isIdChar ID = true ->
  Url.searchParamsGet
    (Url.mk "https" "" "" (Some "youtube.com") None
            (Url.Segments ["watch"]) (Some ("v=" ++ ID)) None) "v" = Some ID.
Proof.
  intros Hchars. unfold Url.searchParamsGet, Url.params, Url.parseParams, Text.split.
  cbn [Url.query String.append Text.splitBy Ascii.eqb Bool.eqb].
  rewrite (plain_splitBy _ _ (id_not_char "&" eq_refl) ID Hchars).
  cbn. now rewrite (plusToSpace_plain ID Hchars), (percentDecode_plain ID Hchars).
Qed.

(** C4: for every video identifier (10 or 11 characters among letters,
    digits, [-] and [_]), the three forms https://youtu.be/ID,
    https://youtube.com/watch?v=ID and https://youtube.com/shorts/ID are
    all mapped to https://www.youtube.com/watch?v=ID. *)
Theorem cleanYouTubeUrl_canonical (ID : string) :
  isVideoId ID = true ->
  cleanYouTubeUrl ("https://youtu.be/" ++ ID) = "https://www.youtube.com/watch?v=" ++ ID /\
  cleanYouTubeUrl ("https://youtube.com/watch?v=" ++ ID) =
    "https://www.youtube.com/watch?v=" ++ ID /\
  cleanYouTubeUrl ("https://youtube.com/shorts/" ++ ID) =
    "https://www.youtube.com/watch?v=" ++ ID.
Proof.
  intros Hid. pose proof (videoId_chars ID Hid) as Hchars.
  pose proof (videoId_length ID Hid) as Hlen.
  pose proof (videoId_present ID Hid) as Hpresent.
  pose proof (canonical_href ID Hid) as Hhref.
  assert (Hshort : forall s, (String.length s < 10)%nat ->
            ((10 <=? String.length s)%nat && (String.length s <=? 11)%nat) = false).
  { intros s Hs. apply andb_false_iff. left. apply Nat.leb_gt. exact Hs. }
  split; [| split].
  - unfold cleanYouTubeUrl. rewrite (parse_youtu_be ID Hid).
    cbn - [Url.parse Url.href Url.searchParamsSet absent Nat.leb String.length].
    rewrite (plain_splitBy _ _ (id_not_char "/" eq_refl) ID Hchars).
    rewrite (Hshort "") by (simpl; lia).
    cbn [List.find]. rewrite Hlen, Hpresent. cbn [andb]. rewrite Hpresent.
    exact Hhref.
  - unfold cleanYouTubeUrl. rewrite (parse_watch ID Hid).
    cbn - [Url.parse Url.href Url.searchParamsSet absent Nat.leb String.length].
    pose proof (searchParams_watch ID Hchars) as Hget.
    cbn [String.append] in Hget.
    cbn [absent andb]. rewrite Hget, Hpresent.
    exact Hhref.
  - unfold cleanYouTubeUrl. rewrite (parse_shorts ID Hid).
    cbn - [Url.parse Url.href Url.searchParamsSet absent Nat.leb String.length].
    rewrite (plain_splitBy _ _ (id_not_char "/" eq_refl) ID Hchars).
    rewrite (Hshort "") by (simpl; lia).
    rewrite (Hshort "shorts") by (simpl; lia).
    cbn [List.find]. rewrite Hlen, Hpresent. cbn [andb]. rewrite Hpresent.
    exact Hhref.
Qed.

Lemma cleanYouTubeUrl_canonical_witness :
  cleanYouTubeUrl "https://youtu.be/dQw4w9WgXcQ" =
    "https://www.youtube.com/watch?v=dQw4w9WgXcQ" /\
  cleanYouTubeUrl "https://youtube.com/watch?v=dQw4w9WgXcQ" =
    "https://www.youtube.com/watch?v=dQw4w9WgXcQ" /\
  cleanYouTubeUrl "https://youtube.com/shorts/dQw4w9WgXcQ" =
    "https://www.youtube.com/watch?v=dQw4w9WgXcQ".
Proof.
  apply (cleanYouTubeUrl_canonical "dQw4w9WgXcQ"). reflexivity.
Defined.

(** A path segment of another length is not taken for an identifier: the
    URL comes back as it was given. *)
Lemma cleanYouTubeUrl_other_length :
  cleanYouTubeUrl "https://youtu.be/abc" = "https://youtu.be/abc" /\
  cleanYouTubeUrl "https://youtube.com/shorts/abc" = "https://youtube.com/shorts/abc".
Proof. split; reflexivity. Qed.

(** * Further properties *)

(** ** What the classifier can answer *)

Lemma firstPlatform_listed (hostname : string) (entries : list (string * list string))
      (platform : string) :
  firstPlatform hostname entries = Some platform ->
  In platform (List.map fst entries).
Proof.
  induction entries as [| [p domains] rest IH]; simpl; [discriminate |].
  destruct (existsb (fun domain => Text.includes hostname domain) domains).
  - intros H. injection H as <-. now left.
  - intros H. right. now apply IH.
Qed.

Lemma extractPlatform_listed (address platform : string) :
  extractPlatform address = Some platform ->
  platform = "YouTube" \/ platform = "TikTok" \/ platform = "Facebook".
Proof.
  unfold extractPlatform. destruct (Url.parse address) as [u |]; [| discriminate].
  intros H. apply firstPlatform_listed in H. simpl in H.
  destruct H as [H | [H | [H | []]]]; auto.
Qed.

(** X1: [extractPlatform] answers with one of the three names of the table
    and only for a string that parses as a URL; a string that does not
    parse, whatever it contains, is given no platform. *)
Theorem extractPlatform_range (address platform : string) :
  extractPlatform address = Some platform ->
  (platform = "YouTube" \/ platform = "TikTok" \/ platform = "Facebook") /\
  exists u, Url.parse address = Some u.
Proof.
  intros H. split; [now apply extractPlatform_listed in H |].
  unfold extractPlatform in H.
  destruct (Url.parse address) as [u |]; [eauto | discriminate].
Qed.

Lemma extractPlatform_range_witness :
  ("Facebook" = "YouTube" \/ "Facebook" = "TikTok" \/ "Facebook" = "Facebook") /\
  exists u, Url.parse "https://fb.watch/abc123/" = Some u.
Proof.
  apply (extractPlatform_range "https://fb.watch/abc123/" "Facebook"). reflexivity.
Defined.

(** ** What the download endpoint can answer *)

Lemma tiktokDownload_completes (w : World) (metadata : VideoMetadata) (format : value)
      (outcome : Outcome) :
  tiktokDownload w metadata format = Ok outcome ->
  exists headers source, outcome = Pipe headers source.
Proof.
  unfold tiktokDownload, bind. intros H. crack H.
  all: injection H as <-; eauto.
Qed.

(** The answers the [try] block of the download endpoint can complete
    with: the 401 of the key gate or, past the gate, a 400, a redirect or a
    stream. *)
Lemma downloadAttempt_completes (API_KEY : string) (w : World) (req : Request)
      (outcome : Outcome) :
  downloadAttempt API_KEY w req = Ok outcome ->
  (keyRejected API_KEY req = true /\ outcome = Json 401 (Failure "Invalid API key.")) \/
  (keyRejected API_KEY req = false /\
   (outcome = Json 400 (Failure "Invalid or missing URL parameter.") \/
    outcome = Json 400 (Failure "Unsupported platform for download.") \/
    (exists location, outcome = Redirect 302 location) \/
    (exists headers source, outcome = Pipe headers source))).
Proof.
  unfold downloadAttempt, keyRejected. intros H.
  destruct (trimmed (lookup "url" (query req))) as [address | e]; cbn [bind] in H;
    [| discriminate].
  destruct (negb (API_KEY =? "")%string &&
            negb (strictEq (lookup "key" (query req)) (VString API_KEY))).
  { injection H as <-. now left. }
  right. split; [reflexivity |].
  destruct address as [[| c r] |]; try (injection H as <-; now auto).
  destruct (negb (isValidUrl (String c r))); [injection H as <-; now auto |].
  destruct (extractPlatform (String c r)) as [platform |] eqn:Hplat;
    [| injection H as <-; now auto].
  destruct (platform =? "YouTube")%string eqn:Hyou; [injection H as <-; eauto 6 |].
  destruct (platform =? "Facebook")%string eqn:Hface; [injection H as <-; eauto 6 |].
  destruct (platform =? "TikTok")%string eqn:Htik.
  - destruct (getTikTokMetadata w (String c r)) as [metadata | e]; cbn [bind] in H;
      [| discriminate].
    apply tiktokDownload_completes in H. auto 6.
  - exfalso. apply extractPlatform_listed in Hplat.
    destruct Hplat as [-> | [-> | ->]]; discriminate.
Qed.

(** X2: the download endpoint always answers: with 401, 400, 404 or 500
    and a failure body, with a 302 redirect, or with a stream; the promise
    of the handler is never rejected and no request is left unanswered. *)
Theorem download_always_answers (API_KEY : string) (w : World) (req : Request) :
  match downloadHandler API_KEY w req with
  | Json status (Failure _) => In status [400; 401; 404; 500]
  | Json _ (Data _) => False
  | Redirect status _ => status = 302
  | Pipe _ _ => True
  | Rejected _ | Unanswered => False
  end.
Proof.
  unfold downloadHandler, caught.
  destruct (downloadAttempt API_KEY w req) as [outcome | e] eqn:Hattempt.
  - apply downloadAttempt_completes in Hattempt.
    destruct Hattempt
      as [[_ ->] | [_ [-> | [-> | [[location ->] | (headers & source & ->)]]]]];
      simpl; auto.
  - unfold downloadCatch.
    destruct (Text.includes (message e) "No valid download URL"); simpl; auto.
Qed.

(** X3: a 401 comes from the key gate only: a key is configured, the
    supplied one differs, and the body is the invalid-key failure.  With no
    key configured no request is answered 401. *)
Theorem download_unauthorized_only_by_key
  (API_KEY : string) (w : World) (req : Request) (body : Body) :
  downloadHandler API_KEY w req = Json 401 body ->
  keyRejected API_KEY req = true /\
  API_KEY <> "" /\
  body = Failure "Invalid API key.".
Proof.
  unfold downloadHandler, caught. intros H.
  destruct (downloadAttempt API_KEY w req) as [outcome | e] eqn:Hattempt.
  - subst outcome. apply downloadAttempt_completes in Hattempt.
    destruct Hattempt
      as [[Hgate Hbody] | [_ [Hbody | [Hbody | [[? Hbody] | (? & ? & Hbody)]]]]];
      try discriminate Hbody.
    injection Hbody as ->. split; [exact Hgate |]. split; [| reflexivity].
    intros ->. discriminate Hgate.
  - unfold downloadCatch in H.
    destruct (Text.includes (message e) "No valid download URL"); discriminate H.
Qed.

Lemma download_unauthorized_only_by_key_witness :
  keyRejected "secret" (mkRequest [("key", VString "guess")]) = true /\
  "secret" <> "" /\
  Failure "Invalid API key." = Failure "Invalid API key.".
Proof.
  apply (download_unauthorized_only_by_key "secret" sampleWorld
           (mkRequest [("key", VString "guess")])).
  reflexivity.
Defined.

(** ** What the metadata endpoint can answer *)

Lemma statusCodeFor_range (msg : string) : In (statusCodeFor msg) [400; 404; 500; 504].
Proof.
  unfold statusCodeFor.
  repeat match goal with
         | |- context [if ?b then _ else _] => destruct b
         end; simpl; auto.
Qed.

(** X4: the metadata endpoint answers 200 with the metadata, or 400, 404,
    500 or 504 with a failure body; its promise is rejected only when the
    [url] parameter is neither absent nor a string. *)
Theorem metadata_answers (w : World) (req : Request) :
  match metadataHandler w req with
  | Json status (Data _) => status = 200
  | Json status (Failure _) => In status [400; 404; 500; 504]
  | Rejected _ =>
      lookup "url" (query req) <> VUndefined /\
      forall s, lookup "url" (query req) <> VString s
  | Redirect _ _ | Pipe _ _ | Unanswered => False
  end.
Proof.
  unfold metadataHandler.
  destruct (lookup "url" (query req)) as [| | b | n | s | items | fields];
    cbn [trimmed]; try (split; [discriminate | intros ?; discriminate]).
  1, 2: simpl; auto.
  destruct (Text.trim s) as [| c r]; [simpl; auto |].
  destruct (negb (isValidUrl (String c r))); [simpl; auto |].
  destruct (extractPlatform (String c r)) as [platform |]; [| simpl; auto].
  destruct (fetchMetadata w platform (String c r)); [reflexivity |].
  apply statusCodeFor_range.
Qed.

(** ** Validation *)

Lemma dropWhile_all (p : ascii -> bool) (s : string) :
  Text.all p s = true -> Text.dropWhile p s = "".
Proof.
  induction s as [| c r IH]; [reflexivity |].
  simpl. intros H. apply andb_true_iff in H as [Hc Hr]. now rewrite Hc, IH.
Qed.

(** A string of white space trims to nothing. *)
Lemma trim_blank (s : string) : Text.all Text.isWhite s = true -> Text.trim s = "".
Proof. intros H. unfold Text.trim. now rewrite dropWhile_all. Qed.

(** X5: a [url] parameter that is absent or holds white space only is
    refused with 400 by both endpoints (by the download endpoint once the
    key gate is passed), and the outside world is not consulted. *)
Theorem blank_url_refused (API_KEY : string) (w : World) (req : Request) :
  lookup "url" (query req) = VUndefined \/
  (exists s, lookup "url" (query req) = VString s /\ Text.all Text.isWhite s = true) ->
  metadataHandler w req = Json 400 (Failure "URL parameter is required.") /\
  (keyRejected API_KEY req = false ->
   downloadHandler API_KEY w req =
   Json 400 (Failure "Invalid or missing URL parameter.")).
Proof.
  intros Hurl.
  assert (Htrim : trimmed (lookup "url" (query req)) = Ok None \/
                  trimmed (lookup "url" (query req)) = Ok (Some "")).
  { destruct Hurl as [-> | (s & -> & Hs)]; [now left | right].
    cbn [trimmed]. now rewrite trim_blank. }
  split.
  - unfold metadataHandler. destruct Htrim as [-> | ->]; reflexivity.
  - intros Hkey. unfold downloadHandler, caught, downloadAttempt.
    unfold keyRejected in Hkey.
    destruct Htrim as [-> | ->]; cbn [bind]; rewrite Hkey; reflexivity.
Qed.

Lemma blank_url_refused_witness :
  metadataHandler sampleWorld (mkRequest [("url", VString "   ")]) =
    Json 400 (Failure "URL parameter is required.") /\
  (keyRejected "" (mkRequest [("url", VString "   ")]) = false ->
   downloadHandler "" sampleWorld (mkRequest [("url", VString "   ")]) =
   Json 400 (Failure "Invalid or missing URL parameter.")).
Proof.
  apply (blank_url_refused "" sampleWorld (mkRequest [("url", VString "   ")])).
  right. exists "   ". split; reflexivity.
Defined.

(** X6: a valid URL of no listed platform is refused with 400 by both
    endpoints; the metadata endpoint names the three platforms it
    supports. *)
Theorem unsupported_platform_refused
  (API_KEY : string) (w : World) (req : Request) (address : string) :
  trimmed (lookup "url" (query req)) = Ok (Some address) ->
  isValidUrl address = true ->
  extractPlatform address = None ->
  metadataHandler w req =
    Json 400 (Failure "Unsupported platform. Supported: YouTube, TikTok, Facebook") /\
  (keyRejected API_KEY req = false ->
   downloadHandler API_KEY w req =
   Json 400 (Failure "Unsupported platform for download.")).
Proof.
  intros Hurl Hvalid Hplat.
  pose proof (isValidUrl_nonempty _ Hvalid) as Hne.
  destruct address as [| c r]; [congruence |].
  split.
  - unfold metadataHandler. rewrite Hurl, Hvalid, Hplat. reflexivity.
  - intros Hkey. unfold downloadHandler, caught, downloadAttempt.
    unfold keyRejected in Hkey.
    rewrite Hurl. cbn [bind]. rewrite Hkey, Hvalid, Hplat. reflexivity.
Qed.

Lemma unsupported_platform_refused_witness :
  metadataHandler sampleWorld (mkRequest [("url", VString "https://example.com/v/1")]) =
    Json 400 (Failure "Unsupported platform. Supported: YouTube, TikTok, Facebook") /\
  (keyRejected "" (mkRequest [("url", VString "https://example.com/v/1")]) = false ->
   downloadHandler "" sampleWorld (mkRequest [("url", VString "https://example.com/v/1")]) =
   Json 400 (Failure "Unsupported platform for download.")).
Proof.
  apply (unsupported_platform_refused "" sampleWorld
           (mkRequest [("url", VString "https://example.com/v/1")])
           "https://example.com/v/1"); reflexivity.
Defined.

(** ** Redirects *)

(** The download endpoint on a URL of a platform that is served by a
    redirect. *)
Lemma downloadHandler_redirect
  (API_KEY : string) (w : World) (req : Request) (address platform : string) :
  trimmed (lookup "url" (query req)) = Ok (Some address) ->
  keyRejected API_KEY req = false ->
  isValidUrl address = true ->
  extractPlatform address = Some platform ->
  platform <> "TikTok" ->
  downloadHandler API_KEY w req =
  Redirect 302
    (if (platform =? "YouTube")%string
     then "https://loader.to/api/download/?url=" ++
          encodeURIComponent (cleanYouTubeUrl address) ++ "&format=mp4"
     else "https://getmyfb.com/process/?url=" ++ encodeURIComponent address).
Proof.
  intros Hurl Hkey Hvalid Hplat Hnot.
  pose proof (isValidUrl_nonempty _ Hvalid) as Hne.
  destruct address as [| c r]; [congruence |].
  unfold downloadHandler, caught, downloadAttempt. unfold keyRejected in Hkey.
  rewrite Hurl. cbn [bind]. rewrite Hkey, Hvalid, Hplat. cbn [negb].
  destruct (extractPlatform_listed _ _ Hplat) as [-> | [-> | ->]];
    [reflexivity | congruence | reflexivity].
Qed.

(** X7: for a YouTube or Facebook URL the download endpoint answers with
    a 302 redirect that is fixed by the URL alone: two requests for it that
    pass the key gate get the same redirect, whatever the outside world
    and whatever their other parameters.  The server makes no outbound
    request for these platforms. *)
Theorem download_redirects_offline
  (API_KEY : string) (w w' : World) (req req' : Request) (address platform : string) :
  trimmed (lookup "url" (query req)) = Ok (Some address) ->
  trimmed (lookup "url" (query req')) = Ok (Some address) ->
  keyRejected API_KEY req = false ->
  keyRejected API_KEY req' = false ->
  isValidUrl address = true ->
  extractPlatform address = Some platform ->
  platform <> "TikTok" ->
  exists location,
    downloadHandler API_KEY w req = Redirect 302 location /\
    downloadHandler API_KEY w' req' = Redirect 302 location.
Proof.
  intros Hurl Hurl' Hkey Hkey' Hvalid Hplat Hnot.
  eexists. split.
  - now apply (downloadHandler_redirect API_KEY w req address platform).
  - now apply (downloadHandler_redirect API_KEY w' req' address platform).
Qed.

Lemma download_redirects_offline_witness :
  exists location,
    downloadHandler "" sampleWorld
      (mkRequest [("url", VString "https://fb.watch/abc123/")]) = Redirect 302 location /\
    downloadHandler "" goneWorld
      (mkRequest [("format", VString "audio");
                  ("url", VString " https://fb.watch/abc123/ ")]) = Redirect 302 location.
Proof.
  apply (download_redirects_offline "" sampleWorld goneWorld
           (mkRequest [("url", VString "https://fb.watch/abc123/")])
           (mkRequest [("format", VString "audio");
                       ("url", VString " https://fb.watch/abc123/ ")])
           "https://fb.watch/abc123/" "Facebook");
    (reflexivity || discriminate).
Defined.

(** ** Provider failures *)

(** X8: every failure of a provider carries a message that begins with
    the name of its platform, and nothing of the upstream response. *)
Theorem provider_errors_prefixed (w : World) (address : string) (e : error) :
  (getYouTubeMetadata w address = Throw e ->
   Text.startsWith "YouTube: " (message e) = true /\ response e = None) /\
  (getTikTokMetadata w address = Throw e ->
   Text.startsWith "TikTok: " (message e) = true /\ response e = None) /\
  (getFacebookMetadata w address = Throw e ->
   Text.startsWith "Facebook: " (message e) = true /\ response e = None).
Proof.
  split; [| split].
  - unfold getYouTubeMetadata, bind. intros H. crack H.
    all: injection H as <-; split; reflexivity.
  - unfold getTikTokMetadata, bind. intros H. crack H.
    all: injection H as <-; split; reflexivity.
  - unfold getFacebookMetadata, bind. intros H. crack H.
    all: injection H as <-; split; reflexivity.
Qed.

Lemma provider_errors_prefixed_witness :
  Text.startsWith "TikTok: " "TikTok: TikTok API Error: Video not found" = true /\
  response (Error "TikTok: TikTok API Error: Video not found") = None.
Proof.
  apply (proj1 (proj2 (provider_errors_prefixed goneWorld "https://vm.tiktok.com/xyz"
                         (Error "TikTok: TikTok API Error: Video not found")))).
  reflexivity.
Defined.

(** X9: a YouTube URL from which no identifier can be read is refused
    with 400 by the metadata endpoint, before any request to the metadata
    service. *)
Theorem youtube_without_id_refused
  (w : World) (req : Request) (address : string) :
  trimmed (lookup "url" (query req)) = Ok (Some address) ->
  isValidUrl address = true ->
  extractPlatform address = Some "YouTube" ->
  absent (extractYouTubeId (cleanYouTubeUrl address)) = true ->
  metadataHandler w req =
  Json 400 (Failure "YouTube: Invalid video URL or ID could not be extracted.").
Proof.
  intros Hurl Hvalid Hplat Habsent.
  rewrite (metadataHandler_validated w req address "YouTube" Hurl Hvalid Hplat).
  destruct (fetchMetadata_dispatch w address) as [-> _].
  unfold getYouTubeMetadata.
  destruct (extractYouTubeId (cleanYouTubeUrl address)) as [[| c r] |];
    try discriminate Habsent; reflexivity.
Qed.

Lemma youtube_without_id_refused_witness :
  metadataHandler sampleWorld
    (mkRequest [("url", VString "https://www.youtube.com/feed/trending")]) =
  Json 400 (Failure "YouTube: Invalid video URL or ID could not be extracted.").
Proof.
  apply (youtube_without_id_refused sampleWorld
           (mkRequest [("url", VString "https://www.youtube.com/feed/trending")])
           "https://www.youtube.com/feed/trending"); reflexivity.
Defined.

(** X10: when the TikTok resolver reports a failure (a code other than 0
    or no payload) and gives no message, the provider fails with the
    default message and the metadata endpoint answers 404. *)
Theorem tiktok_resolver_failure
  (w : World) (address : string) (responseData : value) :
  axios_post w TIKTOK_API_URL (VObject [("url", VString address)]) = Ok responseData ->
  nullish responseData = false ->
  strictEq (getOpt responseData "code") (VNumber (Int 0)) = false \/
  truthy (getOpt responseData "data") = false ->
  truthy (getOpt responseData "msg") = false ->
  getTikTokMetadata w address =
    Throw (Error "TikTok: TikTok API Error: Video not found or unavailable.") /\
  (forall req,
      trimmed (lookup "url" (query req)) = Ok (Some address) ->
      isValidUrl address = true ->
      extractPlatform address = Some "TikTok" ->
      metadataHandler w req =
      Json 404 (Failure "TikTok: TikTok API Error: Video not found or unavailable.")).
Proof.
  intros Hpost Hn Hfail Hmsg.
  assert (Hthrow : getTikTokMetadata w address =
                   Throw (Error "TikTok: TikTok API Error: Video not found or unavailable.")).
  { unfold getTikTokMetadata. rewrite Hpost. cbn [bind].
    rewrite !(get_defined _ _ Hn). cbn [bind].
    assert (Hgate : negb (strictEq (getOpt responseData "code") (VNumber (Int 0)))
                    || negb (truthy (getOpt responseData "data")) = true).
    { destruct Hfail as [-> | ->]; [reflexivity | apply orb_true_r]. }
    rewrite Hgate. cbn [bind].
    unfold Js.or. rewrite Hmsg. reflexivity. }
  split; [exact Hthrow |].
  intros req Hurl Hvalid Hplat.
  rewrite (metadataHandler_validated w req address "TikTok" Hurl Hvalid Hplat).
  destruct (fetchMetadata_dispatch w address) as (_ & -> & _).
  rewrite Hthrow. reflexivity.
Qed.

Lemma tiktok_resolver_failure_witness :
  getTikTokMetadata silentWorld "https://vm.tiktok.com/xyz" =
    Throw (Error "TikTok: TikTok API Error: Video not found or unavailable.") /\
  (forall req,
      trimmed (lookup "url" (query req)) = Ok (Some "https://vm.tiktok.com/xyz") ->
      isValidUrl "https://vm.tiktok.com/xyz" = true ->
      extractPlatform "https://vm.tiktok.com/xyz" = Some "TikTok" ->
      metadataHandler silentWorld req =
      Json 404 (Failure "TikTok: TikTok API Error: Video not found or unavailable.")).
Proof.
  apply (tiktok_resolver_failure silentWorld "https://vm.tiktok.com/xyz"
           (VObject [("code", VNumber (Int (-1)))]));
    try reflexivity.
  left. reflexivity.
Defined.

(** ** What a TikTok record offers *)

(** A successful answer of the TikTok provider, read back: the resolver
    reported code 0 with a payload, and the record lists the no-watermark
    link, if there is one, before the watermarked one, if there is one. *)
Lemma tiktok_success_shape (w : World) (address : string) (m : VideoMetadata) :
  getTikTokMetadata w address = Ok m ->
  exists responseData,
    axios_post w TIKTOK_API_URL (VObject [("url", VString address)]) = Ok responseData /\
    getOpt responseData "code" = VNumber (Int 0) /\
    truthy (getOpt responseData "data") = true /\
    let data := getOpt responseData "data" in
    options m =
      ((if truthy (getOpt data "play") then [noWatermark (getOpt data "play")] else []) ++
       (if truthy (getOpt data "wmplay") then [watermarked (getOpt data "wmplay")] else []))%list /\
    (truthy (getOpt data "play") = true \/ truthy (getOpt data "wmplay") = true) /\
    title m = Js.or (getOpt data "title") (VString "TikTok Video") /\
    duration m = formatDuration (getOpt data "duration").
Proof.
  unfold getTikTokMetadata. intros H.
  destruct (axios_post w TIKTOK_API_URL (VObject [("url", VString address)]))
    as [responseData | e] eqn:Hpost; cbn [bind] in H; [| discriminate].
  exists responseData. split; [reflexivity |].
  unfold get at 1 in H. destruct (nullish responseData) eqn:Hn; cbn [bind] in H;
    [discriminate |].
  rewrite !(get_defined _ _ Hn) in H. cbn [bind] in H.
  destruct (negb (strictEq (getOpt responseData "code") (VNumber (Int 0)))
            || negb (truthy (getOpt responseData "data"))) eqn:Hgate;
    [discriminate |].
  apply orb_false_elim in Hgate as [Hcode Hdata].
  apply negb_false_iff in Hcode, Hdata.
  rewrite !(get_defined _ _ (truthy_not_nullish _ Hdata)) in H. cbn [bind] in H.
  assert (Hzero : getOpt responseData "code" = VNumber (Int 0)).
  { destruct (getOpt responseData "code") as [| | | [| z] | | |];
      try discriminate Hcode. simpl in Hcode. apply Z.eqb_eq in Hcode. now subst z. }
  split; [exact Hzero |]. split; [exact Hdata |]. cbv zeta.
  destruct (truthy (getOpt (getOpt responseData "data") "play")) eqn:Hplay;
    destruct (truthy (getOpt (getOpt responseData "data") "wmplay")) eqn:Hwm;
    cbn [List.length Nat.eqb app] in H; try discriminate H;
    injection H as <-; cbn [options title duration];
    repeat split; auto.
Qed.

(** The selection never invents an option, and it finds one whenever
    there is any. *)
Lemma selectOption_member (options : list DownloadOption) (format : value)
      (opt : DownloadOption) :
  selectOption options format = Some opt -> In opt options.
Proof.
  unfold selectOption, orElse.
  destruct (List.find (fun o => strictEq (VString (id o)) format) options) eqn:Hf.
  { intros H. injection H as <-. now apply List.find_some in Hf. }
  destruct (List.find (fun o => (id o =? "nowm")%string) options) eqn:Hn.
  { intros H. injection H as <-. now apply List.find_some in Hn. }
  destruct options as [| o rest]; [discriminate |].
  intros H. injection H as <-. now left.
Qed.

Lemma selectOption_found (options : list DownloadOption) (format : value) :
  options <> [] -> exists opt, selectOption options format = Some opt.
Proof.
  intros Hne. unfold selectOption, orElse.
  destruct (List.find (fun o => strictEq (VString (id o)) format) options); [eauto |].
  destruct (List.find (fun o => (id o =? "nowm")%string) options); [eauto |].
  destruct options as [| o rest]; [congruence | simpl; eauto].
Qed.

(** Every option of a record the TikTok provider returns carries a truthy
    link, the extension mp4 and no [hasAudio] property. *)
Lemma tiktok_options_linked (w : World) (address : string) (m : VideoMetadata) :
  getTikTokMetadata w address = Ok m ->
  Forall (fun opt => exists link,
              url opt = Some link /\ truthy link = true /\
              ext opt = "mp4" /\ hasAudio opt = None)
         (options m).
Proof.
  intros H. apply tiktok_success_shape in H.
  destruct H as (responseData & _ & _ & _ & Hopts & _). cbv zeta in Hopts.
  rewrite Hopts.
  destruct (truthy (getOpt (getOpt responseData "data") "play")) eqn:Hplay;
    destruct (truthy (getOpt (getOpt responseData "data") "wmplay")) eqn:Hwm;
    repeat constructor; eexists; cbn; eauto.
Qed.

(** X11: a record the TikTok provider returns can always be served:
    whatever format is asked for, the selection yields one of its options,
    and that option carries a usable link.  The 404 of the download
    endpoint for a missing link does not arise from such a record. *)
Theorem tiktok_record_streamable
  (w : World) (address : string) (m : VideoMetadata) (format : value) :
  getTikTokMetadata w address = Ok m ->
  exists opt link,
    selectOption (options m) format = Some opt /\
    In opt (options m) /\
    url opt = Some link /\
    truthy link = true /\
    lacksUrl opt = false /\
    ext opt = "mp4" /\
    hasAudio opt = None.
Proof.
  intros H.
  pose proof (tiktok_options_nonempty w address m H) as Hne.
  pose proof (tiktok_options_linked w address m H) as Hall.
  destruct (selectOption_found (options m) format Hne) as [opt Hsel].
  pose proof (selectOption_member _ _ _ Hsel) as Hin.
  rewrite Forall_forall in Hall.
  destruct (Hall opt Hin) as (link & Hurl & Htruthy & Hext & Haudio).
  exists opt, link. repeat split; auto.
  unfold lacksUrl. now rewrite Hurl, Htruthy.
Qed.

Lemma tiktok_record_streamable_witness :
  exists opt link,
    selectOption
      [watermarked (VString "https://cdn.example/x.mp4")] (VString "hd") = Some opt /\
    In opt [watermarked (VString "https://cdn.example/x.mp4")] /\
    url opt = Some link /\
    truthy link = true /\
    lacksUrl opt = false /\
    ext opt = "mp4" /\
    hasAudio opt = None.
Proof.
  apply (tiktok_record_streamable sampleWorld "https://vm.tiktok.com/xyz"
           {| video_id := VString "tiktok-1700000000000";
              title := VString "My Vid!";
              uploader := VString "TikTok User";
              duration := "Unknown";
              thumbnail := VNull;
              description := VString "My Vid!";
              viewCount := VUndefined;
              uploadDate := None;
              options := [watermarked (VString "https://cdn.example/x.mp4")];
              platform := "TikTok" |}
           (VString "hd")).
  reflexivity.
Defined.

Lemma truthy_property (v : value) (key : string) :
  truthy (getOpt v key) = true -> truthy v = true.
Proof. destruct v; simpl; try discriminate; reflexivity. Qed.

(** The no-watermark link, when listed, is served unless the watermarked
    one is asked for. *)
Lemma select_no_watermark (link : value) (rest : list DownloadOption) (format : value) :
  Forall (fun opt => id opt = "wm") rest ->
  format <> VString "wm" ->
  selectOption (noWatermark link :: rest) format = Some (noWatermark link).
Proof.
  intros Hrest Hformat. unfold selectOption, orElse. cbn [List.find id noWatermark].
  destruct (strictEq (VString "nowm") format); [reflexivity |].
  assert (Hnone : List.find (fun opt => strictEq (VString (id opt)) format) rest = None).
  { induction Hrest as [| o l Ho _ IH]; [reflexivity |].
    cbn [List.find]. rewrite Ho.
    destruct (strictEq (VString "wm") format) eqn:E; [| exact IH].
    apply strictEq_string in E. congruence. }
  rewrite Hnone. reflexivity.
Qed.

(** X12: when the resolver gives a no-watermark link, a TikTok download
    that does not ask for the format "wm" streams that link, as an
    attachment named after the sanitized title with the extension mp4 and
    the content type video/mp4. *)
Theorem tiktok_serves_no_watermark
  (API_KEY : string) (w : World) (req : Request) (address : string)
  (responseData : value) (t : string) :
  trimmed (lookup "url" (query req)) = Ok (Some address) ->
  keyRejected API_KEY req = false ->
  isValidUrl address = true ->
  extractPlatform address = Some "TikTok" ->
  axios_post w TIKTOK_API_URL (VObject [("url", VString address)]) = Ok responseData ->
  getOpt responseData "code" = VNumber (Int 0) ->
  truthy (getOpt (getOpt responseData "data") "play") = true ->
  lookup "format" (query req) <> VString "wm" ->
  axios_stream w (getOpt (getOpt responseData "data") "play") = Ok tt ->
  Js.or (getOpt (getOpt responseData "data") "title") (VString "TikTok Video") = VString t ->
  downloadHandler API_KEY w req =
  Pipe [("Content-Disposition",
         "attachment; filename=" ++ quote ++ (sanitize t ++ ".mp4") ++ quote);
        ("Content-Type", "video/mp4")]
       (getOpt (getOpt responseData "data") "play").
Proof.
  intros Hurl Hkey Hvalid Hplat Hpost Hcode Hplay Hformat Hstream Htitle.
  pose proof (truthy_property _ _ Hplay) as Hdata.
  assert (Hn : nullish responseData = false).
  { apply (getOpt_defined _ "code"). rewrite Hcode. discriminate. }
  destruct (getTikTokMetadata w address) as [m | e] eqn:Hmeta.
  - rewrite (downloadHandler_tiktok API_KEY w req address m Hurl Hkey Hvalid Hplat Hmeta).
    apply tiktok_success_shape in Hmeta.
    destruct Hmeta as (r & Hpost' & _ & _ & Hopts & _ & Htitle' & _).
    rewrite Hpost in Hpost'. injection Hpost' as <-. cbv zeta in Hopts, Htitle'.
    rewrite Hplay in Hopts. cbn [app] in Hopts.
    unfold tiktokDownload. rewrite Hopts.
    rewrite select_no_watermark; [| | exact Hformat].
    + unfold lacksUrl. cbn [url noWatermark]. rewrite Hplay. cbn [negb].
      rewrite Hstream. cbn [bind ext hasAudio]. rewrite Htitle', Htitle. reflexivity.
    + destruct (truthy (getOpt (getOpt responseData "data") "wmplay"));
        repeat constructor.
  - exfalso. revert Hmeta. unfold getTikTokMetadata. rewrite Hpost. cbn [bind].
    rewrite !(get_defined _ _ Hn). cbn [bind].
    rewrite Hcode, Hdata. cbn [strictEq Z.eqb negb orb].
    rewrite !(get_defined _ _ (truthy_not_nullish _ Hdata)). cbn [bind].
    rewrite Hplay. cbn [app List.length Nat.eqb]. discriminate.
Qed.

Lemma tiktok_serves_no_watermark_witness :
  downloadHandler "" fullWorld
    (mkRequest [("url", VString "https://vm.tiktok.com/xyz"); ("format", VString "1080p")]) =
  Pipe [("Content-Disposition",
         "attachment; filename=" ++ quote ++ (sanitize "Cat: 1st Jump!" ++ ".mp4") ++ quote);
        ("Content-Type", "video/mp4")]
       (VString "https://cdn.example/clean.mp4").
Proof.
  apply (tiktok_serves_no_watermark "" fullWorld
           (mkRequest [("url", VString "https://vm.tiktok.com/xyz");
                       ("format", VString "1080p")])
           "https://vm.tiktok.com/xyz"
           (VObject [("code", VNumber (Int 0));
                     ("data", VObject [("title", VString "Cat: 1st Jump!");
                                       ("play", VString "https://cdn.example/clean.mp4");
                                       ("wmplay", VString "https://cdn.example/marked.mp4")])])
           "Cat: 1st Jump!");
    (reflexivity || discriminate).
Defined.

(** ** What is streamed *)

Lemma tiktokDownload_pipe (w : World) (m : VideoMetadata) (format : value)
      (headers : list (string * string)) (source : value) :
  tiktokDownload w m format = Ok (Pipe headers source) ->
  exists opt t,
    selectOption (options m) format = Some opt /\
    url opt = Some source /\
    title m = VString t /\
    headers =
      [("Content-Disposition",
        "attachment; filename=" ++ quote ++
        (sanitize t ++ "." ++ match ext opt with "" => "mp4" | e => e end) ++ quote);
       ("Content-Type",
        match hasAudio opt with Some (VBool false) => "audio/mpeg" | _ => "video/mp4" end)].
Proof.
  unfold tiktokDownload.
  destruct (selectOption (options m) format) as [opt |]; [| discriminate].
  destruct (lacksUrl opt) eqn:Hlack; [discriminate |].
  unfold lacksUrl in Hlack.
  destruct (url opt) as [link |] eqn:Hurl; [| discriminate].
  destruct (axios_stream w link); cbn [bind]; [| discriminate].
  destruct (title m) as [| | | | t | |]; try discriminate.
  intros H. injection H as <- <-. exists opt, t. auto.
Qed.

(** X13: whatever the download endpoint streams is a TikTok video served
    as video/mp4 under a file name with the extension mp4, from a link that
    is a truthy value of the resolver's answer; the audio content type is
    never sent. *)
Theorem download_stream_headers
  (API_KEY : string) (w : World) (req : Request)
  (headers : list (string * string)) (source : value) :
  downloadHandler API_KEY w req = Pipe headers source ->
  exists address t,
    trimmed (lookup "url" (query req)) = Ok (Some address) /\
    extractPlatform address = Some "TikTok" /\
    truthy source = true /\
    headers =
      [("Content-Disposition",
        "attachment; filename=" ++ quote ++ (sanitize t ++ ".mp4") ++ quote);
       ("Content-Type", "video/mp4")].
Proof.
  unfold downloadHandler, caught. intros H.
  destruct (downloadAttempt API_KEY w req) as [outcome | e] eqn:Hattempt.
  2: { unfold downloadCatch in H. discriminate H. }
  subst outcome. revert Hattempt. unfold downloadAttempt.
  destruct (trimmed (lookup "url" (query req))) as [address | e]; cbn [bind];
    [| discriminate].
  destruct (negb (API_KEY =? "")%string &&
            negb (strictEq (lookup "key" (query req)) (VString API_KEY)));
    [discriminate |].
  destruct address as [[| c r] |]; try discriminate.
  destruct (negb (isValidUrl (String c r))); [discriminate |].
  destruct (extractPlatform (String c r)) as [platform |] eqn:Hplat; [| discriminate].
  destruct (platform =? "YouTube")%string; [discriminate |].
  destruct (platform =? "Facebook")%string; [discriminate |].
  destruct (platform =? "TikTok")%string eqn:Htik; [| discriminate].
  apply String.eqb_eq in Htik. subst platform.
  destruct (getTikTokMetadata w (String c r)) as [m | e] eqn:Hmeta; cbn [bind];
    [| discriminate].
  intros Hpipe. apply tiktokDownload_pipe in Hpipe.
  destruct Hpipe as (opt & t & Hsel & Hurl & _ & ->).
  pose proof (tiktok_options_linked w (String c r) m Hmeta) as Hall.
  rewrite Forall_forall in Hall.
  destruct (Hall opt (selectOption_member _ _ _ Hsel))
    as (link & Hurl' & Htruthy & Hext & Haudio).
  rewrite Hurl in Hurl'. injection Hurl' as <-.
  exists (String c r), t. rewrite Hext, Haudio. repeat split; auto.
Qed.

Lemma download_stream_headers_witness :
  exists address t,
    trimmed (lookup "url" (query (mkRequest [("url", VString "https://vm.tiktok.com/xyz")]))) =
      Ok (Some address) /\
    extractPlatform address = Some "TikTok" /\
    truthy (VString "https://cdn.example/clean.mp4") = true /\
    [("Content-Disposition",
      "attachment; filename=" ++ quote ++ "cat__1st_jump_.mp4" ++ quote);
     ("Content-Type", "video/mp4")] =
      [("Content-Disposition",
        "attachment; filename=" ++ quote ++ (sanitize t ++ ".mp4") ++ quote);
       ("Content-Type", "video/mp4")].
Proof.
  apply (download_stream_headers "" fullWorld
           (mkRequest [("url", VString "https://vm.tiktok.com/xyz")])).
  reflexivity.
Defined.

Lemma sanitize_char (c : ascii) :
  isFileNameChar (Text.lowerChar (if Text.isAlnum c then c else "_"%char)) = true.
Proof.
  destruct c as [b0 b1 b2 b3 b4 b5 b6 b7];
    destruct b0, b1, b2, b3, b4, b5, b6, b7; reflexivity.
Qed.

(** X14: the sanitized title has the length of the title and holds only
    lower-case letters, digits and underscores: no quote, slash, dot or
    control character reaches the file name of the attachment. *)
Theorem sanitize_safe (t : string) :
  Text.all isFileNameChar (sanitize t) = true /\
  String.length (sanitize t) = String.length t.
Proof.
  unfold sanitize, Text.toLowerCase.
  induction t as [| c r [IHall IHlen]]; [split; reflexivity |].
  cbn [Text.map Text.all String.length]. rewrite sanitize_char, IHall, IHlen.
  split; reflexivity.
Qed.

Lemma percent_safe (c : ascii) : Text.all isUriSafe (Text.percent c) = true.
Proof.
  destruct c as [b0 b1 b2 b3 b4 b5 b6 b7];
    destruct b0, b1, b2, b3, b4, b5, b6, b7; reflexivity.
Qed.

Lemma all_append (p : ascii -> bool) (a b : string) :
  Text.all p (a ++ b) = Text.all p a && Text.all p b.
Proof.
  induction a as [| c r IH]; [reflexivity |].
  simpl. now rewrite IH, andb_assoc.
Qed.

(** X15: [encodeURIComponent] yields only letters, digits, the marks
    [- _ . ! ~ * ' ( )] and the percent sign: the URL it embeds in a redirect
    or in the request to the metadata service cannot add a parameter or a
    fragment of its own. *)
Theorem encodeURIComponent_safe (s : string) :
  Text.all isUriSafe (encodeURIComponent s) = true /\
  Text.any (Text.oneOf [38; 61; 35; 63; 47; 32]) (encodeURIComponent s) = false.
Proof.
  unfold encodeURIComponent.
  induction s as [| c r [IHall IHany]]; [split; reflexivity |].
  cbn [Text.percentEncode].
  destruct (negb (Text.isAlnum c ||
                  Text.oneOf [45; 95; 46; 33; 126; 42; 39; 40; 41] c)) eqn:Hc.
  - split.
    + now rewrite all_append, percent_safe, IHall.
    + revert Hc. clear IHall.
      destruct c as [b0 b1 b2 b3 b4 b5 b6 b7];
        destruct b0, b1, b2, b3, b4, b5, b6, b7; intros Hc;
        try discriminate Hc; exact IHany.
  - split.
    + cbn [Text.all]. rewrite IHall, andb_true_r.
      revert Hc. clear.
      destruct c as [b0 b1 b2 b3 b4 b5 b6 b7];
        destruct b0, b1, b2, b3, b4, b5, b6, b7; intros Hc;
        try discriminate Hc; reflexivity.
    + cbn [Text.any]. rewrite IHany, orb_false_r.
      revert Hc. clear.
      destruct c as [b0 b1 b2 b3 b4 b5 b6 b7];
        destruct b0, b1, b2, b3, b4, b5, b6, b7; intros Hc;
        try discriminate Hc; reflexivity.
Qed.

(** ** Durations that are not printed *)

(** X16: zero, negative numbers, [NaN], [null] and [undefined] are all
    answered with "Unknown": the duration formatter prints nothing for a
    payload without a positive duration. *)
Theorem formatDuration_unknown (z : Z) :
  z <= 0 ->
  formatDuration (VNumber (Int z)) = "Unknown" /\
  formatDuration (VNumber NaN) = "Unknown" /\
  formatDuration VNull = "Unknown" /\
  formatDuration VUndefined = "Unknown".
Proof.
  intros Hz. repeat split; try reflexivity.
  unfold formatDuration. cbn [truthy isNaN ToNumber lt].
  destruct (Z.eq_dec z 0) as [-> | Hne]; [reflexivity |].
  replace (z <? 0) with true by (symmetry; apply Z.ltb_lt; lia).
  now rewrite orb_true_r.
Qed.

Lemma formatDuration_unknown_witness :
  formatDuration (VNumber (Int (-30))) = "Unknown" /\
  formatDuration (VNumber NaN) = "Unknown" /\
  formatDuration VNull = "Unknown" /\
  formatDuration VUndefined = "Unknown".
Proof. apply (formatDuration_unknown (-30)). lia. Defined.

(** ** YouTube requests, end to end *)

Lemma id_not_reserved :
  rejects isIdChar
    (fun c => negb (Text.isAlnum c ||
                    Text.oneOf [45; 95; 46; 33; 126; 42; 39; 40; 41] c)).
Proof. unfold rejects. by_enumeration. Qed.

(** Each form is a valid YouTube URL and is cleaned to the watch URL of its
    identifier. *)
Lemma youtubeForms_accepted (ID address : string) :
  isVideoId ID = true ->
  In address (youtubeForms ID) ->
  isValidUrl address = true /\
  extractPlatform address = Some "YouTube" /\
  cleanYouTubeUrl address = "https://www.youtube.com/watch?v=" ++ ID.
Proof.
  intros Hid Hin. pose proof (videoId_chars ID Hid) as Hchars.
  pose proof (videoId_length ID Hid) as Hlen.
  pose proof (videoId_present ID Hid) as Hpresent.
  pose proof (canonical_href ID Hid) as Hhref.
  assert (Hshort : forall s, (String.length s < 10)%nat ->
            ((10 <=? String.length s)%nat && (String.length s <=? 11)%nat) = false).
  { intros s Hs. apply andb_false_iff. left. apply Nat.leb_gt. exact Hs. }
  unfold isValidUrl, extractPlatform, cleanYouTubeUrl.
  destruct Hin as [<- | [<- | [<- | []]]].
  - rewrite (parse_youtu_be ID Hid). split; [reflexivity |]. split; [reflexivity |].
    cbn - [Url.parse Url.href Url.searchParamsSet absent Nat.leb String.length].
    rewrite (plain_splitBy _ _ (id_not_char "/" eq_refl) ID Hchars).
    rewrite (Hshort "") by (simpl; lia).
    cbn [List.find]. rewrite Hlen, Hpresent. cbn [andb]. rewrite Hpresent.
    exact Hhref.
  - rewrite (parse_watch ID Hid). split; [reflexivity |]. split; [reflexivity |].
    cbn - [Url.parse Url.href Url.searchParamsSet absent Nat.leb String.length].
    pose proof (searchParams_watch ID Hchars) as Hget.
    cbn [String.append] in Hget.
    cbn [absent andb]. rewrite Hget, Hpresent.
    exact Hhref.
  - rewrite (parse_shorts ID Hid). split; [reflexivity |]. split; [reflexivity |].
    cbn - [Url.parse Url.href Url.searchParamsSet absent Nat.leb String.length].
    rewrite (plain_splitBy _ _ (id_not_char "/" eq_refl) ID Hchars).
    rewrite (Hshort "") by (simpl; lia).
    rewrite (Hshort "shorts") by (simpl; lia).
    cbn [List.find]. rewrite Hlen, Hpresent. cbn [andb]. rewrite Hpresent.
    exact Hhref.
Qed.

Lemma append_assoc (a b c : string) : (a ++ b) ++ c = a ++ b ++ c.
Proof. induction a as [| x r IH]; [reflexivity | simpl; now rewrite IH]. Qed.

Lemma percentEncode_append (p : ascii -> bool) (a b : string) :
  Text.percentEncode p (a ++ b) = Text.percentEncode p a ++ Text.percentEncode p b.
Proof.
  induction a as [| c r IH]; [reflexivity |].
  simpl. rewrite IH. destruct (p c); [| reflexivity].
  unfold Text.percent. reflexivity.
Qed.

Lemma encode_canonical (ID : string) :
  isVideoId ID = true ->
  encodeURIComponent ("https://www.youtube.com/watch?v=" ++ ID) =
  "https%3A%2F%2Fwww.youtube.com%2Fwatch%3Fv%3D" ++ ID.
Proof.
  intros Hid. unfold encodeURIComponent.
  rewrite percentEncode_append.
  now rewrite (plain_percentEncode _ _ id_not_reserved ID (videoId_chars ID Hid)).
Qed.

(** X17: a download request for any of the three forms of a YouTube URL
    is answered with a redirect to the loader service that carries the
    encoded watch URL of the video and the format mp4, whatever format was
    asked for. *)
Theorem youtube_download_redirect
  (API_KEY : string) (w : World) (req : Request) (ID address : string) :
  isVideoId ID = true ->
  In address (youtubeForms ID) ->
  trimmed (lookup "url" (query req)) = Ok (Some address) ->
  keyRejected API_KEY req = false ->
  downloadHandler API_KEY w req =
  Redirect 302
    ("https://loader.to/api/download/?url=https%3A%2F%2Fwww.youtube.com%2Fwatch%3Fv%3D"
     ++ ID ++ "&format=mp4").
Proof.
  intros Hid Hin Hurl Hkey.
  destruct (youtubeForms_accepted ID address Hid Hin) as (Hvalid & Hplat & Hclean).
  rewrite (downloadHandler_redirect API_KEY w req address "YouTube"
             Hurl Hkey Hvalid Hplat) by discriminate.
  cbn [String.eqb Ascii.eqb Bool.eqb]. rewrite Hclean, (encode_canonical ID Hid).
  cbn [String.append]. reflexivity.
Qed.

Lemma youtube_download_redirect_witness :
  downloadHandler "" sampleWorld
    (mkRequest [("url", VString "https://youtube.com/shorts/dQw4w9WgXcQ");
                ("format", VString "audio")]) =
  Redirect 302
    ("https://loader.to/api/download/?url=https%3A%2F%2Fwww.youtube.com%2Fwatch%3Fv%3D"
     ++ "dQw4w9WgXcQ" ++ "&format=mp4").
Proof.
  apply (youtube_download_redirect "" sampleWorld
           (mkRequest [("url", VString "https://youtube.com/shorts/dQw4w9WgXcQ");
                       ("format", VString "audio")])
           "dQw4w9WgXcQ" "https://youtube.com/shorts/dQw4w9WgXcQ");
    try reflexivity.
  right. right. left. reflexivity.
Defined.

Lemma parse_canonical (ID : string) :
  isVideoId ID = true ->
  Url.parse ("https://www.youtube.com/watch?v=" ++ ID) =
  Some (Url.mk "https" "" "" (Some "www.youtube.com") None
               (Url.Segments ["watch"]) (Some ("v=" ++ ID)) None).
Proof.
  intros Hid. pose proof (videoId_chars ID Hid) as Hchars.
  unfold Url.parse.
  rewrite clean_printable by (simpl; now apply printable_suffix).
  cbn.
  rewrite (plain_span _ _ (id_not_char "#" eq_refl) ID Hchars).
  cbn.
  now rewrite (plain_percentEncode _ _ id_not_specialQuerySet ID Hchars).
Qed.

(** The identifier is read back from the watch URL. *)
Lemma extractYouTubeId_canonical (ID : string) :
  isVideoId ID = true ->
  extractYouTubeId ("https://www.youtube.com/watch?v=" ++ ID) = Some ID.
Proof.
  intros Hid. pose proof (videoId_chars ID Hid) as Hchars.
  unfold extractYouTubeId. rewrite (parse_canonical ID Hid).
  unfold Url.searchParamsGet, Url.params, Url.parseParams, Text.split.
  cbn [Url.query String.append Text.splitBy Ascii.eqb Bool.eqb].
  rewrite (plain_splitBy _ _ (id_not_char "&" eq_refl) ID Hchars).
  cbn. now rewrite (plusToSpace_plain ID Hchars), (percentDecode_plain ID Hchars).
Qed.

(** X18: a metadata request for any of the three forms of a YouTube URL
    asks the metadata service about the watch URL of the video and, when
    the service answers without an error, is answered 200 with a record
    whose id is the identifier, whose thumbnail is the image of that
    identifier, whose duration is "Unknown" and whose options are the four
    hardcoded ones. *)
Theorem youtube_metadata_success
  (w : World) (req : Request) (ID address : string) (data : value) :
  isVideoId ID = true ->
  In address (youtubeForms ID) ->
  trimmed (lookup "url" (query req)) = Ok (Some address) ->
  axios_get w (NOEMBED_API_URL ++ "?url=https%3A%2F%2Fwww.youtube.com%2Fwatch%3Fv%3D" ++ ID)
    = Ok data ->
  nullish data = false ->
  truthy (getOpt data "error") = false ->
  metadataHandler w req =
  Json 200
    (Data {| video_id := VString ID;
             title := Js.or (getOpt data "title") (VString "YouTube Video");
             uploader := Js.or (getOpt data "author_name") (VString "YouTube");
             duration := "Unknown";
             thumbnail :=
               VString ("https://img.youtube.com/vi/" ++ ID ++ "/maxresdefault.jpg");
             description := Js.or (getOpt data "title") (VString "");
             viewCount := VNull;
             uploadDate := Some VNull;
             options :=
               [ external "best" "Best Quality (External)" "mp4" "1080p";
                 external "720p" "HD 720p (External)" "mp4" "720p";
                 external "480p" "SD 480p (External)" "mp4" "480p";
                 external "audio" "Audio Only (External)" "mp3" "audio" ];
             platform := "YouTube" |}).
Proof.
  intros Hid Hin Hurl Hget Hdata Herr.
  destruct (youtubeForms_accepted ID address Hid Hin) as (Hvalid & Hplat & Hclean).
  rewrite (metadataHandler_validated w req address "YouTube" Hurl Hvalid Hplat).
  destruct (fetchMetadata_dispatch w address) as [-> _].
  rewrite Hclean. unfold getYouTubeMetadata.
  rewrite (extractYouTubeId_canonical ID Hid).
  pose proof (videoId_present ID Hid) as Hpresent.
  destruct ID as [| c r]; [discriminate Hpresent |].
  rewrite (encode_canonical _ Hid).
  replace (NOEMBED_API_URL ++ "?url=" ++
           "https%3A%2F%2Fwww.youtube.com%2Fwatch%3Fv%3D" ++ String c r)
    with (NOEMBED_API_URL ++ "?url=https%3A%2F%2Fwww.youtube.com%2Fwatch%3Fv%3D"
          ++ String c r) by reflexivity.
  rewrite Hget. cbn [bind]. rewrite (get_defined _ _ Hdata). cbn [bind].
  rewrite Herr. reflexivity.
Qed.

Lemma youtube_metadata_success_witness :
  metadataHandler sampleWorld
    (mkRequest [("url", VString "https://youtu.be/dQw4w9WgXcQ")]) =
  Json 200
    (Data {| video_id := VString "dQw4w9WgXcQ";
             title := Js.or (getOpt (VObject [("title", VString "A clip")]) "title")
                            (VString "YouTube Video");
             uploader := Js.or (getOpt (VObject [("title", VString "A clip")]) "author_name")
                               (VString "YouTube");
             duration := "Unknown";
             thumbnail :=
               VString ("https://img.youtube.com/vi/" ++ "dQw4w9WgXcQ" ++ "/maxresdefault.jpg");
             description := Js.or (getOpt (VObject [("title", VString "A clip")]) "title")
                                  (VString "");
             viewCount := VNull;
             uploadDate := Some VNull;
             options :=
               [ external "best" "Best Quality (External)" "mp4" "1080p";
                 external "720p" "HD 720p (External)" "mp4" "720p";
                 external "480p" "SD 480p (External)" "mp4" "480p";
                 external "audio" "Audio Only (External)" "mp3" "audio" ];
             platform := "YouTube" |}).
Proof.
  apply (youtube_metadata_success sampleWorld
           (mkRequest [("url", VString "https://youtu.be/dQw4w9WgXcQ")])
           "dQw4w9WgXcQ" "https://youtu.be/dQw4w9WgXcQ"
           (VObject [("title", VString "A clip")]));
    try reflexivity.
  left. reflexivity.
Defined.

(** ** The watch URL and its identifier *)

Lemma form_not_space : rejects isFormChar Url.isC0OrSpace.
Proof. unfold rejects. by_enumeration. Qed.
Lemma form_not_specialQuerySet : rejects isFormChar Url.specialQuerySet.
Proof. unfold rejects. by_enumeration. Qed.
Lemma form_not_hash : rejects isFormChar (Ascii.eqb "#").
Proof. unfold rejects. by_enumeration. Qed.
Lemma form_not_ampersand : rejects isFormChar (Ascii.eqb "&").
Proof. unfold rejects. by_enumeration. Qed.

(** One character through the form serializer and back. *)
Lemma form_char (c : ascii) :
  let h := Text.hexDigit (Text.code c / 16) in
  let l := Text.hexDigit (Text.code c mod 16) in
  Text.isHexDigit h = true /\ Text.isHexDigit l = true /\
  Url.plusToSpace h = h /\ Url.plusToSpace l = l /\
  isFormChar h = true /\ isFormChar l = true /\
  ascii_of_N (Z.to_N (16 * Text.hexValue h + Text.hexValue l)) = c /\
  (Url.urlencodedSet c = false ->
   isFormChar c = true /\ Url.plusToSpace c = c /\ Ascii.eqb c "%" = false).
Proof.
  destruct c as [b0 b1 b2 b3 b4 b5 b6 b7];
    destruct b0, b1, b2, b3, b4, b5, b6, b7; cbv zeta;
    repeat split; intros;
    first [reflexivity | match goal with E : _ = false |- _ => discriminate E end].
Qed.

Lemma percentDecode_other (c : ascii) (r : string) :
  Ascii.eqb c "%" = false ->
  Text.percentDecode (String c r) = String c (Text.percentDecode r).
Proof.
  intros H. cbn [Text.percentDecode]. rewrite H.
  now destruct r as [| x [| y r']].
Qed.

Lemma formEncode_chars (s : string) : Text.all isFormChar (Url.formEncode s) = true.
Proof.
  induction s as [| c r IH]; [reflexivity |].
  cbn [Url.formEncode]. destruct (Ascii.eqb c " ").
  - cbn [Text.all]. now rewrite IH.
  - destruct (form_char c) as (_ & _ & _ & _ & Hh & Hl & _ & Hfree).
    destruct (Url.urlencodedSet c).
    + unfold Text.percent. cbn [String.append Text.all]. now rewrite Hh, Hl, IH.
    + cbn [Text.all]. destruct (Hfree eq_refl) as [-> _]. now rewrite IH.
Qed.

(** What the form serializer writes, the form parser reads back. *)
Lemma form_roundtrip (s : string) :
  Text.percentDecode (Text.map Url.plusToSpace (Url.formEncode s)) = s.
Proof.
  induction s as [| c r IH]; [reflexivity |].
  cbn [Url.formEncode]. destruct (Ascii.eqb c " ") eqn:Hsp.
  - apply Ascii.eqb_eq in Hsp. subst c. cbn [Text.map].
    change (Url.plusToSpace "+") with " "%char.
    rewrite percentDecode_other by reflexivity. now rewrite IH.
  - destruct (form_char c) as (Hh & Hl & Hph & Hpl & _ & _ & Hback & Hfree).
    cbv zeta in *.
    destruct (Url.urlencodedSet c).
    + unfold Text.percent. cbn [String.append Text.map].
      rewrite Hph, Hpl. change (Url.plusToSpace "%") with "%"%char.
      cbn [Text.percentDecode]. rewrite Hh, Hl. cbn [Ascii.eqb Bool.eqb andb].
      now rewrite Hback, IH.
    + destruct (Hfree eq_refl) as (_ & Hp & Hpct).
      cbn [Text.map]. rewrite Hp.
      rewrite percentDecode_other by exact Hpct. now rewrite IH.
Qed.

Lemma form_printable (E : string) :
  Text.all isFormChar E = true -> Text.all isPrintable E = true.
Proof.
  apply all_weaken. intros c H. unfold isPrintable. now rewrite (form_not_space c H).
Qed.

Lemma parse_watch_query (E : string) :
  Text.all isFormChar E = true ->
  Url.parse ("https://www.youtube.com/watch?v=" ++ E) =
  Some (Url.mk "https" "" "" (Some "www.youtube.com") None
               (Url.Segments ["watch"]) (Some ("v=" ++ E)) None).
Proof.
  intros Hchars. unfold Url.parse.
  rewrite clean_printable by (simpl; now apply form_printable).
  cbn.
  rewrite (plain_span _ _ form_not_hash E Hchars).
  cbn.
  now rewrite (plain_percentEncode _ _ form_not_specialQuerySet E Hchars).
Qed.

(** The identifier written into a watch URL is the one read from it. *)
Lemma extractYouTubeId_written (id : string) :
  extractYouTubeId ("https://www.youtube.com/watch?v=" ++ Url.formEncode id) = Some id.
Proof.
  pose proof (formEncode_chars id) as Hchars.
  unfold extractYouTubeId. rewrite (parse_watch_query _ Hchars).
  unfold Url.searchParamsGet, Url.params, Url.parseParams, Text.split.
  cbn [Url.query String.append Text.splitBy Ascii.eqb Bool.eqb].
  rewrite (plain_splitBy _ _ form_not_ampersand _ Hchars).
  cbn. now rewrite form_roundtrip.
Qed.

Lemma written_href (id : string) :
  id <> "" ->
  match Url.parse "https://www.youtube.com/watch" with
  | Some cleanUrl => Url.href (Url.searchParamsSet cleanUrl "v" id)
  | None => ""
  end = "https://www.youtube.com/watch?v=" ++ Url.formEncode id.
Proof.
  intros Hne. cbn. now rewrite append_empty.
Qed.

(** What [cleanYouTubeUrl] can return: its argument, or the watch URL of a
    non-empty identifier. *)
Lemma cleanYouTubeUrl_cases (address : string) :
  cleanYouTubeUrl address = address \/
  exists id,
    id <> "" /\
    cleanYouTubeUrl address = "https://www.youtube.com/watch?v=" ++ Url.formEncode id.
Proof.
  unfold cleanYouTubeUrl.
  destruct (Url.parse address) as [urlObj |]; [| now left].
  cbv zeta.
  match goal with
  | |- context [match ?v with Some _ => _ | None => address end] =>
      destruct v as [[| c r] |]
  end; [now left | | now left].
  right. exists (String c r). split; [discriminate |].
  cbn [absent]. apply written_href. discriminate.
Qed.

Lemma searchParams_written (id : string) :
  Url.searchParamsGet
    (Url.mk "https" "" "" (Some "www.youtube.com") None
            (Url.Segments ["watch"]) (Some ("v=" ++ Url.formEncode id)) None) "v" = Some id.
Proof.
  pose proof (extractYouTubeId_written id) as H.
  unfold extractYouTubeId in H.
  now rewrite (parse_watch_query _ (formEncode_chars id)) in H.
Qed.

(** A watch URL written by [cleanYouTubeUrl] is left as it is. *)
Lemma cleanYouTubeUrl_written (id : string) :
  id <> "" ->
  cleanYouTubeUrl ("https://www.youtube.com/watch?v=" ++ Url.formEncode id) =
  "https://www.youtube.com/watch?v=" ++ Url.formEncode id.
Proof.
  intros Hne. unfold cleanYouTubeUrl.
  rewrite (parse_watch_query _ (formEncode_chars id)).
  cbn - [Url.parse Url.href Url.searchParamsSet Url.searchParamsGet absent].
  pose proof (searchParams_written id) as Hget. cbn [String.append] in Hget.
  cbn [absent andb]. rewrite Hget.
  destruct id as [| c r]; [congruence |]. cbn [absent].
  apply written_href. discriminate.
Qed.

(** X19: [cleanYouTubeUrl] is idempotent: it returns its argument or the
    watch URL of a non-empty identifier; such a watch URL is returned
    unchanged when cleaned again, and [extractYouTubeId] reads the same
    identifier back from it. *)
Theorem cleanYouTubeUrl_idempotent (address : string) :
  cleanYouTubeUrl (cleanYouTubeUrl address) = cleanYouTubeUrl address /\
  (cleanYouTubeUrl address = address \/
   exists id,
     id <> "" /\
     cleanYouTubeUrl address = "https://www.youtube.com/watch?v=" ++ Url.formEncode id /\
     extractYouTubeId (cleanYouTubeUrl address) = Some id).
Proof.
  destruct (cleanYouTubeUrl_cases address) as [Hsame | (id & Hne & Hclean)].
  - split; [now rewrite !Hsame | now left].
  - split.
    + rewrite !Hclean. now apply cleanYouTubeUrl_written.
    + right. exists id. repeat split; auto.
      rewrite Hclean. apply extractYouTubeId_written.
Qed.

(** ** Configuration *)






(** ** Timeouts *)

(** X21: when the request to the upstream service times out, the metadata
    endpoint answers 504 for a Facebook URL (timeout 8000 ms) and for a
    TikTok URL (timeout 10000 ms), with the provider's message as the
    error. *)
Theorem upstream_timeout_504 (w : World) (req : Request) (address : string) :
  trimmed (lookup "url" (query req)) = Ok (Some address) ->
  isValidUrl address = true ->
  (extractPlatform address = Some "Facebook" ->
   axios_get w (NOEMBED_API_URL ++ "?url=" ++ encodeURIComponent address) =
     Throw (Error (timeoutOf 8000)) ->
   metadataHandler w req =
   Json 504 (Failure ("Facebook: Could not fetch video information. Reason: "
                      ++ timeoutOf 8000))) /\
  (extractPlatform address = Some "TikTok" ->
   axios_post w TIKTOK_API_URL (VObject [("url", VString address)]) =
     Throw (Error (timeoutOf 10000)) ->
   metadataHandler w req = Json 504 (Failure ("TikTok: " ++ timeoutOf 10000))).
Proof.
  intros Hurl Hvalid. split; intros Hplat Hcall.
  - rewrite (metadataHandler_validated w req address "Facebook" Hurl Hvalid Hplat).
    destruct (fetchMetadata_dispatch w address) as (_ & _ & ->).
    unfold getFacebookMetadata. rewrite Hcall. reflexivity.
  - rewrite (metadataHandler_validated w req address "TikTok" Hurl Hvalid Hplat).
    destruct (fetchMetadata_dispatch w address) as (_ & -> & _).
    unfold getTikTokMetadata. rewrite Hcall. reflexivity.
Qed.

Lemma upstream_timeout_504_witness :
  metadataHandler slowWorld (mkRequest [("url", VString "https://fb.watch/abc123/")]) =
  Json 504 (Failure ("Facebook: Could not fetch video information. Reason: "
                     ++ timeoutOf 8000)).
Proof.
  apply (proj1 (upstream_timeout_504 slowWorld
                  (mkRequest [("url", VString "https://fb.watch/abc123/")])
                  "https://fb.watch/abc123/" eq_refl eq_refl));
    reflexivity.
Defined.

(** ** Failures of the download endpoint *)

(** X22: the download endpoint does not apply the status rule of the
    metadata endpoint: when the resolver reports a failure without a
    message, a TikTok download is answered 500, where the metadata endpoint
    answers 404, and the error is the provider's message after "Download
    failed: ". *)
Theorem tiktok_download_failure
  (API_KEY : string) (w : World) (req : Request) (address : string)
  (responseData : value) :
  trimmed (lookup "url" (query req)) = Ok (Some address) ->
  keyRejected API_KEY req = false ->
  isValidUrl address = true ->
  extractPlatform address = Some "TikTok" ->
  axios_post w TIKTOK_API_URL (VObject [("url", VString address)]) = Ok responseData ->
  nullish responseData = false ->
  strictEq (getOpt responseData "code") (VNumber (Int 0)) = false \/
  truthy (getOpt responseData "data") = false ->
  truthy (getOpt responseData "msg") = false ->
  downloadHandler API_KEY w req =
    Json 500 (Failure
      "Download failed: TikTok: TikTok API Error: Video not found or unavailable.") /\
  metadataHandler w req =
    Json 404 (Failure "TikTok: TikTok API Error: Video not found or unavailable.").
Proof.
  intros Hurl Hkey Hvalid Hplat Hpost Hn Hfail Hmsg.
  assert (Hthrow : getTikTokMetadata w address =
                   Throw (Error "TikTok: TikTok API Error: Video not found or unavailable.")).
  { unfold getTikTokMetadata. rewrite Hpost. cbn [bind].
    rewrite !(get_defined _ _ Hn). cbn [bind].
    assert (Hgate : negb (strictEq (getOpt responseData "code") (VNumber (Int 0)))
                    || negb (truthy (getOpt responseData "data")) = true).
    { destruct Hfail as [-> | ->]; [reflexivity | apply orb_true_r]. }
    rewrite Hgate. cbn [bind]. unfold Js.or. rewrite Hmsg. reflexivity. }
  split.
  - pose proof (isValidUrl_nonempty _ Hvalid) as Hne.
    destruct address as [| c r]; [congruence |].
    unfold downloadHandler, downloadAttempt. unfold keyRejected in Hkey.
    rewrite Hurl. cbn [bind]. rewrite Hkey, Hvalid, Hplat. cbn [negb].
    change ("TikTok" =? "YouTube")%string with false.
    change ("TikTok" =? "Facebook")%string with false.
    change ("TikTok" =? "TikTok")%string with true.
    cbv iota. rewrite Hthrow. reflexivity.
  - rewrite (metadataHandler_validated w req address "TikTok" Hurl Hvalid Hplat).
    destruct (fetchMetadata_dispatch w address) as (_ & -> & _).
    rewrite Hthrow. reflexivity.
Qed.

Lemma tiktok_download_failure_witness :
  downloadHandler "" silentWorld (mkRequest [("url", VString "https://vm.tiktok.com/xyz")]) =
    Json 500 (Failure
      "Download failed: TikTok: TikTok API Error: Video not found or unavailable.") /\
  metadataHandler silentWorld (mkRequest [("url", VString "https://vm.tiktok.com/xyz")]) =
    Json 404 (Failure "TikTok: TikTok API Error: Video not found or unavailable.").
Proof.
  apply (tiktok_download_failure "" silentWorld
           (mkRequest [("url", VString "https://vm.tiktok.com/xyz")])
           "https://vm.tiktok.com/xyz"
           (VObject [("code", VNumber (Int (-1)))]));
    try reflexivity.
  left. reflexivity.
Defined.

(** ** Durations that are printed *)

Lemma padStart_twoDigits (n : Z) :
  0 <= n < 100 -> Text.padStart 2 "0" (Text.ofZ n) = twoDigits n.
Proof.
  intros Hn.
  assert (Hall : forallb (fun k => (Text.padStart 2 "0" (Text.ofZ (Z.of_nat k))
                                    =? twoDigits (Z.of_nat k))%string)
                         (List.seq 0 100) = true) by (vm_compute; reflexivity).
  rewrite forallb_forall in Hall.
  specialize (Hall (Z.to_nat n)).
  rewrite Z2Nat.id in Hall by lia.
  apply String.eqb_eq. apply Hall. apply in_seq. lia.
Qed.

(** X23: a duration of 1 to 3599 seconds is printed as five characters,
    two digits of minutes, a colon and two digits of seconds. *)
Theorem formatDuration_below_hour (sec : Z) :
  0 < sec < 3600 ->
  formatDuration (VNumber (Int sec)) = twoDigits (sec / 60) ++ ":" ++ twoDigits (sec mod 60) /\
  String.length (formatDuration (VNumber (Int sec))) = 5%nat.
Proof.
  intros Hs.
  assert (Hm : 0 <= sec / 60 < 100).
  { split; [apply Z.div_pos; lia |]. apply Z.div_lt_upper_bound; lia. }
  assert (Hr : 0 <= sec mod 60 < 100).
  { pose proof (Z.mod_pos_bound sec 60). lia. }
  rewrite (formatDuration_minutes sec Hs).
  rewrite (padStart_twoDigits _ Hm), (padStart_twoDigits _ Hr).
  split; reflexivity.
Qed.

Lemma formatDuration_below_hour_witness :
  formatDuration (VNumber (Int 754)) = twoDigits (754 / 60) ++ ":" ++ twoDigits (754 mod 60) /\
  String.length (formatDuration (VNumber (Int 754))) = 5%nat.
Proof. apply (formatDuration_below_hour 754). lia. Defined.


